(** * Onboarding story download: a model of [ts/util/downloadOnboardingStory.ts]

    The workflow is embedded as a program in a small monad that threads the
    mutable world (key-value storage, message database, event-bus listeners,
    clock and id generators), records every call the workflow makes on a
    collaborator, and settles like a promise: resolved with a value or
    rejected with an error.  A rejection keeps the world reached so far. *)

From Stdlib Require Import ZArith Lia.
From Stdlib.Strings Require Import Byte.
From stdpp Require Import base option list gmap strings pretty.

Local Open Scope Z_scope.
Local Open Scope string_scope.
Local Open Scope list_scope.

(** ** Data *)

(** Errors a promise can be rejected with (section 7 of the specification
    names the kinds; the strings carry the detail). *)
Inductive Error : Type :=
  | AssertionError (message : string)
  | TransportError (detail : string)
  | TransportInputError (detail : string)
  | IngestionError (detail : string)
  | PersistenceError (detail : string)
  | OtherError (detail : string).

(** A settled promise. *)
Inductive Settled (A : Type) : Type :=
  | Resolved (value : A)
  | Rejected (reason : Error).
Arguments Resolved {A} value.
Arguments Rejected {A} reason.

(** [ReadStatus] and [SeenStatus] are enums declared outside this file. *)
Inductive ReadStatus : Type := Unread | Read | Viewed.
Inductive SeenStatus : Type := NotApplicable | Unseen | Seen.

(** [IMAGE_JPEG] of [types/MIME]. *)
Definition IMAGE_JPEG : string := "image/jpeg".

Module Attachment.
(** [AttachmentType], with the fields this file sets and the [path] a
    processed attachment receives. *)
Record t : Type := make {
  contentType : string;
  data : list byte;
  size : nat;
  path : option string;
}.
End Attachment.

Module Message.
(** [MessageAttributesType], with the fields this file sets. *)
Record t : Type := make {
  attachments : list Attachment.t;
  canReplyToStory : bool;
  conversationId : string;
  id : string;
  readStatus : ReadStatus;
  received_at : Z;
  received_at_ms : Z;
  seenStatus : SeenStatus;
  sent_at : Z;
  serverTimestamp : Z;
  sourceUuid : option string;
  timestamp : Z;
  type : string;
}.
End Message.

Module Conversation.
(** The signal conversation: its [id] and [get('uuid')]. *)
Record t : Type := make {
  id : string;
  uuid : option string;
}.
End Conversation.

Module Manifest.
(** What [getOnboardingStoryManifest] resolves with. *)
Record t : Type := make {
  version : string;
  languages : gmap string (list string);
}.
End Manifest.

(** Values held by [window.storage] under the two keys of this workflow. *)
Inductive StorageValue : Type :=
  | SVBool (b : bool)
  | SVIds (ids : list string).

(** JavaScript truthiness of a storage read: [undefined] and [false] are
    falsy, [true] and every array (the empty one too) are truthy. *)
Definition truthy (v : option StorageValue) : bool :=
  match v with
  | None => false
  | Some (SVBool b) => b
  | Some (SVIds _) => true
  end.

(** What reading a member of [manifest.languages] can give: the filename
    list held under an own key, a member the object inherits from
    [Object.prototype] (a function, or the prototype itself for
    [__proto__]), or [undefined]. *)
Inductive ImageFilenames : Type :=
  | Filenames (names : list string)
  | InheritedMember (name : string)
  | Undefined.

(** The names a plain object inherits from [Object.prototype].
    [manifest.languages] is such an object (the manifest arrives as parsed
    JSON), and [Manifest.languages] holds its own keys. *)
Definition Object_prototype_members : list string :=
  ["constructor"; "__defineGetter__"; "__defineSetter__"; "hasOwnProperty";
   "__lookupGetter__"; "__lookupSetter__"; "isPrototypeOf";
   "propertyIsEnumerable"; "toString"; "valueOf"; "__proto__";
   "toLocaleString"].

(** The only listener this file registers. *)
Inductive Listener : Type := ContinueDownloadingOnboardingStory.

Inductive LogArg : Type :=
  | LogString (s : string)
  | LogNumber (n : nat).

(** Calls the workflow makes on its collaborators, in program order. *)
Inductive Event : Type :=
  | EvStorageGet (key : string)
  | EvStoragePut (key : string) (value : StorageValue)
  | EvCleanup
  | EvRunStorageServiceSyncJob
  | EvOnce (eventName : string) (listener : Listener)
  | EvGetLocale
  | EvGetManifest
  | EvDownloadStories (version : string) (imageFilenames : ImageFilenames)
  | EvProcessNewAttachment (attachment : Attachment.t)
  | EvGetSignalConversation
  | EvBatcherAdd (attributes : Message.t)
  | EvTrigger (messageId : string) (eventName : string)
  | EvLog (text : string) (args : list LogArg).

(** ** The world *)

(** Mutable state: [window.storage], the rows the message batcher has
    written, the listeners on [window.Whisper.events], how many times
    [Date.now] and [UUID.generate] were called, and the received-at
    counter. *)
Record World : Type := mkWorld {
  storage : gmap string StorageValue;
  messages : list Message.t;
  listeners : list (string * Listener);
  clockReads : nat;
  uuidsDrawn : nat;
  receivedAtCounter : Z;
}.

(** [window.textsecure.server]. *)
Record WebAPI : Type := mkWebAPI {
  getOnboardingStoryManifest : Settled Manifest.t;
  downloadOnboardingStories :
    string -> ImageFilenames -> Settled (list (list byte));
}.

(** The collaborators, as an environment.  [Date_now k] is what the [k]-th
    call of [Date.now()] returns, [UUID_generate k] the [k]-th generated
    identifier.  The cleanup collaborator may change the whole world; the
    others have no access to [window.storage]. *)
Record Env : Type := mkEnv {
  server : option WebAPI;
  getLocale : string;
  processNewAttachment : Attachment.t -> Settled Attachment.t;
  getOrCreateSignalConversation : Settled Conversation.t;
  findAndDeleteOnboardingStoryIfExists : World -> World * Settled unit;
  saveNewMessageBatcher_add : Message.t -> Settled unit;
  Date_now : nat -> Z;
  UUID_generate : nat -> string;
}.

(** ** The monad of asynchronous steps *)

Record Outcome (A : Type) : Type := mkOutcome {
  events : list Event;
  final : World;
  settled : Settled A;
}.
Arguments mkOutcome {A} events final settled.
Arguments events {A} o.
Arguments final {A} o.
Arguments settled {A} o.

Definition Async (A : Type) : Type := World -> Outcome A.

Definition resolve {A : Type} (a : A) : Async A :=
  fun w => mkOutcome [] w (Resolved a).

Definition throw {A : Type} (e : Error) : Async A :=
  fun w => mkOutcome [] w (Rejected e).

(** [await]: run [m]; on resolution continue with [k], on rejection stop
    there, keeping the events and the world of [m]. *)
Definition await {A B : Type} (m : Async A) (k : A -> Async B) : Async B :=
  fun w =>
    let o := m w in
    match settled o with
    | Resolved a =>
        let o' := k a (final o) in
        mkOutcome (events o ++ events o') (final o') (settled o')
    | Rejected e => mkOutcome (events o) (final o) (Rejected e)
    end.

#[global] Instance Async_ret : MRet Async := @resolve.
#[global] Instance Async_bind : MBind Async := fun A B k m => await m k.

(** A call on a collaborator that leaves the world alone. *)
Definition call {A : Type} (ev : Event) (r : Settled A) : Async A :=
  fun w => mkOutcome [ev] w r.

(** [Promise.all] over calls started in index order: every call is made,
    whatever the others do, and when all resolve the whole resolves with the
    values in index order.  When some are rejected the whole is rejected
    with the reason of one of them: JavaScript takes the first rejection in
    time, without waiting for the other calls; the model, which has no
    time, lets every call settle and takes the first rejection by index.
    The statements about a rejected [Promise.all] therefore say only that
    the reason is that of some rejected member, and nothing about what the
    other members have done to the world by then. *)
Fixpoint promise_all {A : Type} (ps : list (Async A)) : Async (list A) :=
  match ps with
  | [] => resolve []
  | p :: rest =>
      fun w =>
        let o := p w in
        let o' := promise_all rest (final o) in
        mkOutcome (events o ++ events o') (final o')
          match settled o, settled o' with
          | Resolved a, Resolved l => Resolved (a :: l)
          | Rejected e, _ => Rejected e
          | Resolved _, Rejected e => Rejected e
          end
  end.

(** ** Collaborators as steps *)

Definition with_storage (f : gmap string StorageValue -> gmap string StorageValue)
    (w : World) : World :=
  mkWorld (f (storage w)) (messages w) (listeners w) (clockReads w)
    (uuidsDrawn w) (receivedAtCounter w).

(** [window.storage.get(key)]. *)
Definition storage_get (key : string) : Async (option StorageValue) :=
  fun w => mkOutcome [EvStorageGet key] w (Resolved (storage w !! key)).

(** Modelled from the spec: [window.storage.put] is declared outside this
    file; by section 6 it is durable on resolution, which is modelled as an
    insertion that always resolves. *)
Definition storage_put (key : string) (value : StorageValue) : Async unit :=
  fun w =>
    mkOutcome [EvStoragePut key value] (with_storage (insert key value) w)
      (Resolved tt).

Definition log_info (text : string) (args : list LogArg) : Async unit :=
  call (EvLog text args) (Resolved tt).

(** Modelled from the spec: [strictAssert] of [./assert] is declared outside
    this file; by sections 4.2 and 7 a falsy condition is an assertion
    failure that aborts the continuation, a truthy one lets it go on with the
    value narrowed. *)
Definition strictAssert {A : Type} (condition : option A) (message : string)
    : Async A :=
  match condition with
  | Some a => resolve a
  | None => throw (AssertionError message)
  end.

(** [Date.now()]. *)
Definition Date_now_call (env : Env) : Async Z :=
  fun w =>
    mkOutcome []
      (mkWorld (storage w) (messages w) (listeners w) (S (clockReads w))
         (uuidsDrawn w) (receivedAtCounter w))
      (Resolved (Date_now env (clockReads w))).

(** [UUID.generate().toString()]. *)
Definition UUID_generate_call (env : Env) : Async string :=
  fun w =>
    mkOutcome []
      (mkWorld (storage w) (messages w) (listeners w) (clockReads w)
         (S (uuidsDrawn w)) (receivedAtCounter w))
      (Resolved (UUID_generate env (uuidsDrawn w))).

(** Modelled from the spec: [window.Signal.Util.incrementMessageCounter] is
    declared outside this file; it is taken as a counter that is bumped and
    returned. *)
Definition incrementMessageCounter : Async Z :=
  fun w =>
    mkOutcome []
      (mkWorld (storage w) (messages w) (listeners w) (clockReads w)
         (uuidsDrawn w) (receivedAtCounter w + 1))
      (Resolved (receivedAtCounter w + 1)).

(** [await findAndDeleteOnboardingStoryIfExists()]. *)
Definition cleanup (env : Env) : Async unit :=
  fun w =>
    let '(w', r) := findAndDeleteOnboardingStoryIfExists env w in
    mkOutcome [EvCleanup] w' r.

Definition runStorageServiceSyncJob : Async unit :=
  call EvRunStorageServiceSyncJob (Resolved tt).

(** [window.Whisper.events.once(eventName, listener)]. *)
Definition events_once (eventName : string) (listener : Listener) : Async unit :=
  fun w =>
    mkOutcome [EvOnce eventName listener]
      (mkWorld (storage w) (messages w) (listeners w ++ [(eventName, listener)])
         (clockReads w) (uuidsDrawn w) (receivedAtCounter w))
      (Resolved tt).

(** Modelled from the spec: [saveNewMessageBatcher.add] is declared outside
    this file; by section 6 the write is durable on resolution, so a resolved
    call appends the row and a rejected one writes nothing. *)
Definition saveNewMessageBatcher_add_call (env : Env) (attributes : Message.t)
    : Async unit :=
  fun w =>
    match saveNewMessageBatcher_add env attributes with
    | Resolved u =>
        mkOutcome [EvBatcherAdd attributes]
          (mkWorld (storage w) (messages w ++ [attributes]) (listeners w)
             (clockReads w) (uuidsDrawn w) (receivedAtCounter w))
          (Resolved u)
    | Rejected e => mkOutcome [EvBatcherAdd attributes] w (Rejected e)
    end.

(** ** The workflow *)

Definition KEY_hasViewed : string := "hasViewedOnboardingStory".
Definition KEY_existingIds : string := "existingOnboardingStoryMessageIds".

(** Lines 24-40. *)
Definition downloadOnboardingStory (env : Env) : Async unit :=
  hasViewedOnboardingStory ← storage_get KEY_hasViewed;
  if truthy hasViewedOnboardingStory then
    cleanup env
  else
    runStorageServiceSyncJob ;;
    events_once "storageService:syncComplete" ContinueDownloadingOnboardingStory.

(** [key in languages]: JavaScript's [in] finds the own keys and the
    inherited members alike. *)
Definition hasProperty (key : string) (languages : gmap string (list string))
    : bool :=
  bool_decide (is_Some (languages !! key))
  || bool_decide (key ∈ Object_prototype_members).

(** [languages[key]]: an own key shadows an inherited member of the same
    name. *)
Definition getProperty (key : string) (languages : gmap string (list string))
    : ImageFilenames :=
  match languages !! key with
  | Some names => Filenames names
  | None =>
      if bool_decide (key ∈ Object_prototype_members) then InheritedMember key
      else Undefined
  end.

(** Lines 71-74: [userLocale in manifest.languages ?
    manifest.languages[userLocale] : manifest.languages.en]. *)
Definition imageFilenames_of (userLocale : string) (manifest : Manifest.t)
    : ImageFilenames :=
  if hasProperty userLocale (Manifest.languages manifest) then
    getProperty userLocale (Manifest.languages manifest)
  else
    getProperty "en" (Manifest.languages manifest).

(** Lines 84-92: the attachment handed to [processNewAttachment]. *)
Definition newAttachment (data : list byte) : Attachment.t :=
  Attachment.make IMAGE_JPEG data (length data) None.

(** Lines 100-119: the callback of [attachments.map], for one attachment at
    [index].  The [MessageModel] that [new window.Whisper.Message] wraps
    around the attributes is represented by the attributes themselves:
    [message.attributes] is the record and [message.id] its [id]. *)
Definition storyMessage (env : Env) (signalConversation : Conversation.t)
    (attachment : Attachment.t) (index : nat) : Async Message.t :=
  now ← Date_now_call env;
  let timestamp := now + Z.of_nat index in
  id ← UUID_generate_call env;
  received_at ← incrementMessageCounter;
  mret (Message.make [attachment] false (Conversation.id signalConversation)
          id Unread received_at timestamp Unseen timestamp timestamp
          (Conversation.uuid signalConversation) timestamp "story").

(** Lines 99-120: [attachments.map((attachment, index) => ...)], from
    [index] on. *)
Fixpoint storyMessages_from (env : Env) (signalConversation : Conversation.t)
    (index : nat) (attachments : list Attachment.t) : Async (list Message.t) :=
  match attachments with
  | [] => mret []
  | attachment :: rest =>
      message ← storyMessage env signalConversation attachment index;
      others ← storyMessages_from env signalConversation (S index) rest;
      mret (message :: others)
  end.

(** Lines 127-129: [storyMessages.forEach(message => message.trigger('change'))]. *)
Fixpoint trigger_change (storyMessages : list Message.t) : Async unit :=
  match storyMessages with
  | [] => mret tt
  | message :: rest =>
      call (EvTrigger (Message.id message) "change") (Resolved tt) ;;
      trigger_change rest
  end.

(** Lines 65-136: the download proper, past the three guards. *)
Definition download (env : Env) (server : WebAPI) : Async unit :=
  userLocale ← call EvGetLocale (Resolved (getLocale env));
  manifest ← call EvGetManifest (getOnboardingStoryManifest server);
  log_info "downloadOnboardingStory: got manifest version:"
    [LogString (Manifest.version manifest)] ;;
  let imageFilenames := imageFilenames_of userLocale manifest in
  imageBuffers ←
    call (EvDownloadStories (Manifest.version manifest) imageFilenames)
      (downloadOnboardingStories server (Manifest.version manifest)
         imageFilenames);
  log_info "downloadOnboardingStory: downloaded stories:"
    [LogNumber (length imageBuffers)] ;;
  attachments ←
    promise_all
      (map (fun data =>
              let attachment := newAttachment data in
              call (EvProcessNewAttachment attachment)
                (processNewAttachment env attachment))
         imageBuffers);
  log_info "downloadOnboardingStory: getting signal conversation" [] ;;
  signalConversation ←
    call EvGetSignalConversation (getOrCreateSignalConversation env);
  storyMessages ← storyMessages_from env signalConversation 0 attachments;
  promise_all (map (saveNewMessageBatcher_add_call env) storyMessages) ;;
  trigger_change storyMessages ;;
  storage_put KEY_existingIds (SVIds (map Message.id storyMessages)) ;;
  log_info "downloadOnboardingStory: done" [].

(** Lines 42-137. *)
Definition continueDownloadingOnboardingStory (env : Env) : Async unit :=
  server ← strictAssert (server env) "server not initialized";
  hasViewedOnboardingStory ← storage_get KEY_hasViewed;
  if truthy hasViewedOnboardingStory then
    cleanup env
  else
    existingOnboardingStoryMessageIds ← storage_get KEY_existingIds;
    if truthy existingOnboardingStoryMessageIds then
      log_info "downloadOnboardingStory: has existingOnboardingStoryMessageIds" []
    else
      download env server.

(** ** Closed forms *)

(** What [Promise.all] settles with, from what its members settle with. *)
Fixpoint settle_all {A : Type} (rs : list (Settled A)) : Settled (list A) :=
  match rs with
  | [] => Resolved []
  | r :: rest =>
      match r, settle_all rest with
      | Resolved a, Resolved l => Resolved (a :: l)
      | Rejected e, _ => Rejected e
      | Resolved _, Rejected e => Rejected e
      end
  end.

(** The message built at position [i] of a batch whose first message reads
    the clock for the [clock0]-th time, draws the [uuid0]-th identifier and
    finds the counter at [counter0]. *)
Definition storyMessage_at (env : Env) (signalConversation : Conversation.t)
    (clock0 uuid0 : nat) (counter0 : Z) (i : nat) (attachment : Attachment.t)
    : Message.t :=
  let timestamp := Date_now env (clock0 + i)%nat + Z.of_nat i in
  Message.make [attachment] false (Conversation.id signalConversation)
    (UUID_generate env (uuid0 + i)%nat) Unread (counter0 + 1 + Z.of_nat i)
    timestamp Unseen timestamp timestamp
    (Conversation.uuid signalConversation) timestamp "story".

(** The rows a batch of [saveNewMessageBatcher.add] calls writes. *)
Fixpoint written (env : Env) (storyMessages : list Message.t) : list Message.t :=
  match storyMessages with
  | [] => []
  | message :: rest =>
      match saveNewMessageBatcher_add env message with
      | Resolved _ => message :: written env rest
      | Rejected _ => written env rest
      end
  end.

(** The messages handed to the batcher, read off a list of events. *)
Fixpoint batched (evs : list Event) : list Message.t :=
  match evs with
  | [] => []
  | EvBatcherAdd attributes :: rest => attributes :: batched rest
  | _ :: rest => batched rest
  end.

(** The values put into [window.storage], read off a list of events. *)
Fixpoint puts (evs : list Event) : list (string * StorageValue) :=
  match evs with
  | [] => []
  | EvStoragePut key value :: rest => (key, value) :: puts rest
  | _ :: rest => puts rest
  end.

(** How many times the cleanup collaborator was invoked. *)
Fixpoint cleanups (evs : list Event) : nat :=
  match evs with
  | [] => 0%nat
  | EvCleanup :: rest => S (cleanups rest)
  | _ :: rest => cleanups rest
  end.

(** Is the event a remote call: sync trigger, listener registration,
    manifest fetch or image download? *)
Definition is_remote (ev : Event) : bool :=
  match ev with
  | EvRunStorageServiceSyncJob | EvOnce _ _ | EvGetManifest
  | EvDownloadStories _ _ => true
  | _ => false
  end.

(** The download proper, step by step: where it stops, with which events,
    in which world. *)
Definition download_closed (env : Env) (server : WebAPI) (w : World)
    : Outcome unit :=
  match getOnboardingStoryManifest server with
  | Rejected e => mkOutcome [EvGetLocale; EvGetManifest] w (Rejected e)
  | Resolved manifest =>
  let version := Manifest.version manifest in
  let imageFilenames := imageFilenames_of (getLocale env) manifest in
  let evs1 :=
    [EvGetLocale; EvGetManifest;
     EvLog "downloadOnboardingStory: got manifest version:" [LogString version];
     EvDownloadStories version imageFilenames] in
  match downloadOnboardingStories server version imageFilenames with
  | Rejected e => mkOutcome evs1 w (Rejected e)
  | Resolved imageBuffers =>
  let evs2 :=
    evs1
    ++ [EvLog "downloadOnboardingStory: downloaded stories:"
          [LogNumber (length imageBuffers)]]
    ++ map (fun data => EvProcessNewAttachment (newAttachment data)) imageBuffers in
  match settle_all
          (map (fun data => processNewAttachment env (newAttachment data))
             imageBuffers) with
  | Rejected e => mkOutcome evs2 w (Rejected e)
  | Resolved attachments =>
  let evs3 :=
    evs2
    ++ [EvLog "downloadOnboardingStory: getting signal conversation" [];
        EvGetSignalConversation] in
  match getOrCreateSignalConversation env with
  | Rejected e => mkOutcome evs3 w (Rejected e)
  | Resolved signalConversation =>
  let storyMessages :=
    imap (storyMessage_at env signalConversation (clockReads w) (uuidsDrawn w)
            (receivedAtCounter w)) attachments in
  let evs4 := evs3 ++ map EvBatcherAdd storyMessages in
  let w4 :=
    mkWorld (storage w) (messages w ++ written env storyMessages) (listeners w)
      (clockReads w + length attachments) (uuidsDrawn w + length attachments)
      (receivedAtCounter w + Z.of_nat (length attachments)) in
  match settle_all (map (saveNewMessageBatcher_add env) storyMessages) with
  | Rejected e => mkOutcome evs4 w4 (Rejected e)
  | Resolved _ =>
      mkOutcome
        (evs4
         ++ map (fun m => EvTrigger (Message.id m) "change") storyMessages
         ++ [EvStoragePut KEY_existingIds (SVIds (map Message.id storyMessages));
             EvLog "downloadOnboardingStory: done" []])
        (with_storage
           (insert KEY_existingIds (SVIds (map Message.id storyMessages))) w4)
        (Resolved tt)
  end end end end end.

(** Events put in front of an outcome. *)
Definition prepend {A : Type} (evs : list Event) (o : Outcome A) : Outcome A :=
  match o with
  | mkOutcome evs' w r => mkOutcome (evs ++ evs') w r
  end.

(** The entry point, step by step. *)
Definition downloadOnboardingStory_closed (env : Env) (w : World) : Outcome unit :=
  if truthy (storage w !! KEY_hasViewed) then
    prepend [EvStorageGet KEY_hasViewed] (cleanup env w)
  else
    mkOutcome
      [EvStorageGet KEY_hasViewed; EvRunStorageServiceSyncJob;
       EvOnce "storageService:syncComplete" ContinueDownloadingOnboardingStory]
      (mkWorld (storage w) (messages w)
         (listeners w
          ++ [("storageService:syncComplete", ContinueDownloadingOnboardingStory)])
         (clockReads w) (uuidsDrawn w) (receivedAtCounter w))
      (Resolved tt).

(** The continuation, step by step. *)
Definition continueDownloadingOnboardingStory_closed (env : Env) (w : World)
    : Outcome unit :=
  match server env with
  | None => mkOutcome [] w (Rejected (AssertionError "server not initialized"))
  | Some server =>
      if truthy (storage w !! KEY_hasViewed) then
        prepend [EvStorageGet KEY_hasViewed] (cleanup env w)
      else if truthy (storage w !! KEY_existingIds) then
        mkOutcome
          [EvStorageGet KEY_hasViewed; EvStorageGet KEY_existingIds;
           EvLog "downloadOnboardingStory: has existingOnboardingStoryMessageIds" []]
          w (Resolved tt)
      else
        prepend [EvStorageGet KEY_hasViewed; EvStorageGet KEY_existingIds]
          (download_closed env server w)
  end.


(** ** Fixtures: concrete collaborators and worlds *)

Definition emptyWorld : World := mkWorld ∅ [] [] 0 0 0.

(** A server whose images are, for the sake of having bytes, the bytes of
    their filenames. *)
Definition serverWith (manifest : Settled Manifest.t) : WebAPI :=
  mkWebAPI manifest
    (fun version imageFilenames =>
       match imageFilenames with
       | Filenames names => Resolved (map String.list_byte_of_string names)
       | InheritedMember _ =>
           Rejected (TransportInputError "imageFiles.map is not a function")
       | Undefined => Rejected (TransportInputError "imageFiles is undefined")
       end).

Definition manifestV1 : Manifest.t :=
  Manifest.make "v1" {[ "en" := ["1.jpg"; "2.jpg"] ]}.


Definition signalConversation0 : Conversation.t :=
  Conversation.make "signal-conversation" (Some "uuid-of-signal").

(** Modelled from the spec: [findAndDeleteOnboardingStoryIfExists] is
    declared outside this file; by sections 3 and 4.1 it finds the messages
    listed under [existingOnboardingStoryMessageIds] and deletes them with
    their record, and does nothing when there is none. *)
Definition findAndDelete_model (w : World) : World * Settled unit :=
  match storage w !! KEY_existingIds with
  | Some (SVIds ids) =>
      (mkWorld (delete KEY_existingIds (storage w))
         (filter (fun m => Message.id m ∉ ids) (messages w))
         (listeners w) (clockReads w) (uuidsDrawn w) (receivedAtCounter w),
       Resolved tt)
  | _ => (w, Resolved tt)
  end.

Definition fixtureEnv (server : option WebAPI) (locale : string)
    (clock : nat -> Z) : Env :=
  mkEnv server locale
    (fun attachment =>
       Resolved
         (Attachment.make (Attachment.contentType attachment)
            (Attachment.data attachment) (Attachment.size attachment)
            (Some "attachments.noindex/onboarding")))
    (Resolved signalConversation0)
    findAndDelete_model
    (fun _ => Resolved tt)
    clock
    (fun k => "story-" +:+ pretty k).

(** A clock that stands still, and one that advances five milliseconds
    between two readings. *)
Definition frozenClock : nat -> Z := fun _ => 1667000000000.
Definition tickingClock : nat -> Z := fun k => 1667000000000 + 5 * Z.of_nat k.

Definition happyEnv : Env :=
  fixtureEnv (Some (serverWith (Resolved manifestV1))) "en" frozenClock.

Definition tickingEnv : Env :=
  fixtureEnv (Some (serverWith (Resolved manifestV1))) "en" tickingClock.

Definition noServerEnv : Env := fixtureEnv None "en" frozenClock.

Definition offlineEnv : Env :=
  fixtureEnv (Some (serverWith (Rejected (TransportError "offline")))) "en"
    frozenClock.


(** The world a completed download leaves behind. *)
Definition downloadedWorld : World :=
  final (continueDownloadingOnboardingStory happyEnv emptyWorld).

(** The same, once the account record says the story was viewed. *)
Definition viewedWorld : World :=
  with_storage (insert KEY_hasViewed (SVBool true)) downloadedWorld.



(** A server that is reachable but fails on the images. *)
Definition noImagesServer : WebAPI :=
  mkWebAPI (Resolved manifestV1)
    (fun _ _ => Rejected (TransportError "503")).

Definition noImagesEnv : Env :=
  fixtureEnv (Some noImagesServer) "en" frozenClock.

(** Collaborators as in [happyEnv], but the ingestion of the second image,
    whose first byte is [0x32], fails. *)
Definition badImageEnv : Env :=
  mkEnv (server happyEnv) (getLocale happyEnv)
    (fun attachment =>
       match Attachment.data attachment with
       | x32 :: _ => Rejected (IngestionError "not a JPEG")
       | _ => processNewAttachment happyEnv attachment
       end)
    (getOrCreateSignalConversation happyEnv)
    (findAndDeleteOnboardingStoryIfExists happyEnv)
    (saveNewMessageBatcher_add happyEnv)
    (Date_now happyEnv) (UUID_generate happyEnv).

(** The state of a device that has not seen the story: the flag is false
    and there is no id list. *)
Definition freshWorld : World :=
  with_storage (insert KEY_hasViewed (SVBool false)) emptyWorld.

(** ** What the claims ask of a run *)

(** What C2 asks of a run: the cleanup collaborator is invoked exactly once,
    and there is no sync trigger, no listener registration, no manifest
    fetch and no image download. *)
Definition cleans_up_once (out : Outcome unit) : Prop :=
  cleanups (events out) = 1%nat /\ filter is_remote (events out) = [].

(** What C1 asks of a run from [w]: it performs the presence check and
    returns, with no message handed to the batcher, no storage write, and
    the storage and the message store as they were. *)
Definition returns_after_presence_check (w : World) (out : Outcome unit) : Prop :=
  In (EvStorageGet KEY_existingIds) (events out)
  /\ settled out = Resolved tt
  /\ batched (events out) = []
  /\ puts (events out) = []
  /\ storage (final out) = storage w
  /\ messages (final out) = messages w.

(** What C4 asks of a batch: its timestamps are [base], [base + 1], ... in
    index order. *)
Definition consecutive_from (base : Z) (storyMessages : list Message.t) : Prop :=
  forall i message,
    storyMessages !! i = Some message ->
    Message.timestamp message = base + Z.of_nat i.

(** The fields C6 lists for a story message. *)
Definition unread_story (message : Message.t) : Prop :=
  Message.type message = "story"
  /\ Message.readStatus message = Unread
  /\ Message.seenStatus message = Unseen
  /\ Message.canReplyToStory message = false.

(** ** Further readers of the events, callers and fixtures *)

(** The events selected by [pick], in order. *)
Fixpoint collect {A : Type} (pick : Event -> option A) (evs : list Event)
    : list A :=
  match evs with
  | [] => []
  | ev :: rest =>
      match pick ev with
      | Some a => a :: collect pick rest
      | None => collect pick rest
      end
  end.

(** The attachments handed to [processNewAttachment]. *)
Definition ingested : list Event -> list Attachment.t :=
  collect (fun ev =>
             match ev with
             | EvProcessNewAttachment attachment => Some attachment
             | _ => None
             end).

(** The [trigger] calls: message identifier and event name. *)
Definition triggered : list Event -> list (string * string) :=
  collect (fun ev =>
             match ev with
             | EvTrigger messageId eventName => Some (messageId, eventName)
             | _ => None
             end).

(** The sync triggers and the listener registrations. *)
Definition registrations : list Event -> list Event :=
  collect (fun ev =>
             match ev with
             | EvRunStorageServiceSyncJob | EvOnce _ _ => Some ev
             | _ => None
             end).

(** A caller that calls [f] [n] times in a row. *)
Fixpoint times (n : nat) (f : Async unit) : Async unit :=
  match n with
  | O => mret tt
  | S n' => f ;; times n' f
  end.

(** What one call of the entry point does while the story is not viewed. *)
Definition entry_calls : list Event :=
  [EvStorageGet KEY_hasViewed; EvRunStorageServiceSyncJob;
   EvOnce "storageService:syncComplete" ContinueDownloadingOnboardingStory].

(** What the continuation does when it finds the id list. *)
Definition presence_calls : list Event :=
  [EvStorageGet KEY_hasViewed; EvStorageGet KEY_existingIds;
   EvLog "downloadOnboardingStory: has existingOnboardingStoryMessageIds" []].


(** Collaborators as in [happyEnv], but the batcher rejects the message
    whose identifier is [story-0], the first of a batch. *)
Definition diskFullEnv : Env :=
  mkEnv (server happyEnv) (getLocale happyEnv)
    (processNewAttachment happyEnv)
    (getOrCreateSignalConversation happyEnv)
    (findAndDeleteOnboardingStoryIfExists happyEnv)
    (fun message =>
       if decide (Message.id message = "story-0")
       then Rejected (PersistenceError "disk full")
       else Resolved tt)
    (Date_now happyEnv) (UUID_generate happyEnv).

(** Collaborators as in [happyEnv], but the signal conversation cannot be
    obtained. *)
Definition noConversationEnv : Env :=
  mkEnv (server happyEnv) (getLocale happyEnv)
    (processNewAttachment happyEnv)
    (Rejected (OtherError "no signal conversation"))
    (findAndDeleteOnboardingStoryIfExists happyEnv)
    (saveNewMessageBatcher_add happyEnv)
    (Date_now happyEnv) (UUID_generate happyEnv).

(** A manifest whose [en] entry is the empty list. *)
Definition manifestNoImages : Manifest.t :=
  Manifest.make "v1" {[ "en" := [] ]}.

Definition noImagesListedEnv : Env :=
  fixtureEnv (Some (serverWith (Resolved manifestNoImages))) "en" frozenClock.

(** * Proofs *)

Ltac async_unfold :=
  unfold mbind, Async_bind, mret, Async_ret, await, resolve, throw, call,
    log_info, storage_get, storage_put, runStorageServiceSyncJob, events_once,
    cleanup, strictAssert.

Lemma batched_app evs1 evs2 : batched (evs1 ++ evs2) = batched evs1 ++ batched evs2.
Proof.
  induction evs1 as [|ev evs1 IH]; [reflexivity|].
  destruct ev; simpl; rewrite ?IH; reflexivity.
Qed.

Lemma puts_app evs1 evs2 : puts (evs1 ++ evs2) = puts evs1 ++ puts evs2.
Proof.
  induction evs1 as [|ev evs1 IH]; [reflexivity|].
  destruct ev; simpl; rewrite ?IH; reflexivity.
Qed.

Lemma batched_adds (storyMessages : list Message.t) :
  batched (map EvBatcherAdd storyMessages) = storyMessages.
Proof. induction storyMessages; simpl; congruence. Qed.

Lemma puts_adds (storyMessages : list Message.t) :
  puts (map EvBatcherAdd storyMessages) = [].
Proof. induction storyMessages; simpl; congruence. Qed.

Lemma batched_map_other {A : Type} (f : A -> Event) (l : list A) :
  (forall a, batched [f a] = []) -> batched (map f l) = [].
Proof.
  intros Hf. induction l as [|a l IH]; [reflexivity|].
  change (map f (a :: l)) with ([f a] ++ map f l).
  rewrite batched_app, Hf, IH. reflexivity.
Qed.

Lemma puts_map_other {A : Type} (f : A -> Event) (l : list A) :
  (forall a, puts [f a] = []) -> puts (map f l) = [].
Proof.
  intros Hf. induction l as [|a l IH]; [reflexivity|].
  change (map f (a :: l)) with ([f a] ++ map f l).
  rewrite puts_app, Hf, IH. reflexivity.
Qed.

(** [Promise.all] over collaborator calls that leave the world alone. *)
Lemma promise_all_calls {A B : Type} (ev : A -> Event) (r : A -> Settled B)
    (l : list A) (w : World) :
  promise_all (map (fun a => call (ev a) (r a)) l) w
  = mkOutcome (map ev l) w (settle_all (map r l)).
Proof.
  induction l as [|a l IH]; [reflexivity|].
  simpl. rewrite IH. simpl. reflexivity.
Qed.

(** [Promise.all] over the batcher calls: every message is handed over, the
    resolved ones are written. *)
Lemma promise_all_batcher (env : Env) (storyMessages : list Message.t) (w : World) :
  promise_all (map (saveNewMessageBatcher_add_call env) storyMessages) w
  = mkOutcome (map EvBatcherAdd storyMessages)
      (mkWorld (storage w) (messages w ++ written env storyMessages)
         (listeners w) (clockReads w) (uuidsDrawn w) (receivedAtCounter w))
      (settle_all (map (saveNewMessageBatcher_add env) storyMessages)).
Proof.
  revert w. induction storyMessages as [|m l IH]; intros w.
  - simpl. unfold resolve. rewrite app_nil_r. destruct w; reflexivity.
  - simpl. rewrite IH. unfold saveNewMessageBatcher_add_call.
    destruct (saveNewMessageBatcher_add env m) as [[]|e]; simpl;
      rewrite <- ?app_assoc; reflexivity.
Qed.

Lemma trigger_change_run (storyMessages : list Message.t) (w : World) :
  trigger_change storyMessages w
  = mkOutcome (map (fun m => EvTrigger (Message.id m) "change") storyMessages)
      w (Resolved tt).
Proof.
  induction storyMessages as [|m l IH]; [reflexivity|].
  simpl. async_unfold. simpl. rewrite IH. reflexivity.
Qed.

(** The synchronous [map] that builds the messages: it makes no call on a
    collaborator, always yields one message per attachment, and advances the
    clock, the identifier source and the counter by one per message. *)
Lemma storyMessages_from_run (env : Env) (signalConversation : Conversation.t)
    (attachments : list Attachment.t) (index : nat) (w : World) :
  storyMessages_from env signalConversation index attachments w
  = mkOutcome []
      (mkWorld (storage w) (messages w) (listeners w)
         (clockReads w + length attachments) (uuidsDrawn w + length attachments)
         (receivedAtCounter w + Z.of_nat (length attachments)))
      (Resolved
         (imap (fun i attachment =>
                  let timestamp :=
                    Date_now env (clockReads w + i)%nat + Z.of_nat (index + i) in
                  Message.make [attachment] false
                    (Conversation.id signalConversation)
                    (UUID_generate env (uuidsDrawn w + i)%nat) Unread
                    (receivedAtCounter w + 1 + Z.of_nat i)
                    timestamp Unseen timestamp timestamp
                    (Conversation.uuid signalConversation) timestamp "story")
            attachments)).
Proof.
  revert index w. induction attachments as [|a l IH]; intros index w.
  - simpl. async_unfold. destruct w; simpl.
    rewrite !Nat.add_0_r, Z.add_0_r. reflexivity.
  - simpl. async_unfold. unfold storyMessage. async_unfold.
    unfold Date_now_call, UUID_generate_call, incrementMessageCounter. simpl.
    rewrite IH. simpl. f_equal.
    + f_equal; lia.
    + f_equal. rewrite !Nat.add_0_r, Z.add_0_r. f_equal.
      apply imap_ext. intros i x _. simpl.
      replace (S (clockReads w + i))%nat with (clockReads w + S i)%nat by lia.
      replace (S (uuidsDrawn w + i))%nat with (uuidsDrawn w + S i)%nat by lia.
      replace (S (index + i))%nat with (index + S i)%nat by lia.
      replace (receivedAtCounter w + 1 + 1 + Z.of_nat i)
        with (receivedAtCounter w + 1 + Z.of_nat (S i)) by lia.
      reflexivity.
Qed.

Lemma await_run {A B : Type} (m : Async A) (k : A -> Async B) (w : World) :
  (m ≫= k) w
  = match settled (m w) with
    | Resolved a => prepend (events (m w)) (k a (final (m w)))
    | Rejected e => mkOutcome (events (m w)) (final (m w)) (Rejected e)
    end.
Proof.
  unfold mbind, Async_bind, await.
  destruct (settled (m w)) as [a|e]; [|reflexivity].
  destruct (k a (final (m w))); reflexivity.
Qed.

Ltac red_outcome :=
  cbn [events final settled app map length storage messages listeners
       clockReads uuidsDrawn receivedAtCounter prepend].

Ltac step := rewrite await_run; cbv beta; red_outcome.

Lemma download_run (env : Env) (server : WebAPI) (w : World) :
  download env server w = download_closed env server w.
Proof.
  unfold download, download_closed, log_info, call, storage_put.
  do 2 step.
  destruct (getOnboardingStoryManifest server) as [manifest|e];
    [|reflexivity].
  do 2 step.
  destruct (downloadOnboardingStories server _ _) as [imageBuffers|e];
    [|reflexivity].
  do 2 step.
  fold (@call Attachment.t).
  rewrite (promise_all_calls
             (fun data => EvProcessNewAttachment (newAttachment data))
             (fun data => processNewAttachment env (newAttachment data))).
  red_outcome.
  destruct (settle_all _) as [attachments|e]; [|reflexivity].
  do 2 step.
  destruct (getOrCreateSignalConversation env) as [signalConversation|e];
    [|red_outcome; rewrite <- ?app_assoc; reflexivity].
  step. rewrite storyMessages_from_run. red_outcome.
  change (imap _ attachments)
    with (imap (storyMessage_at env signalConversation (clockReads w)
                  (uuidsDrawn w) (receivedAtCounter w)) attachments).
  generalize (imap (storyMessage_at env signalConversation (clockReads w)
                  (uuidsDrawn w) (receivedAtCounter w)) attachments).
  intros storyMessages.
  step. rewrite promise_all_batcher. red_outcome.
  destruct (settle_all (map (saveNewMessageBatcher_add env) _)) as [us|e];
    [|red_outcome; rewrite <- ?app_assoc; reflexivity].
  step. rewrite trigger_change_run. red_outcome.
  step. 
  rewrite <- ?app_assoc. reflexivity.
Qed.

Lemma downloadOnboardingStory_run (env : Env) (w : World) :
  downloadOnboardingStory env w = downloadOnboardingStory_closed env w.
Proof.
  unfold downloadOnboardingStory, downloadOnboardingStory_closed, storage_get.
  step. destruct (truthy (storage w !! KEY_hasViewed)); [reflexivity|].
  unfold runStorageServiceSyncJob, call, events_once. step. reflexivity.
Qed.

Lemma prepend_nil {A : Type} (o : Outcome A) : prepend [] o = o.
Proof. destruct o. reflexivity. Qed.

Lemma prepend_prepend {A : Type} evs1 evs2 (o : Outcome A) :
  prepend evs1 (prepend evs2 o) = prepend (evs1 ++ evs2) o.
Proof. destruct o. simpl. rewrite app_assoc. reflexivity. Qed.

Lemma continueDownloadingOnboardingStory_run (env : Env) (w : World) :
  continueDownloadingOnboardingStory env w
  = continueDownloadingOnboardingStory_closed env w.
Proof.
  unfold continueDownloadingOnboardingStory,
    continueDownloadingOnboardingStory_closed, storage_get, log_info, call.
  destruct (server env) as [server0|]; unfold strictAssert, resolve, throw;
    step; [|reflexivity].
  rewrite prepend_nil.
  step. destruct (truthy (storage w !! KEY_hasViewed)); [reflexivity|].
  step. destruct (truthy (storage w !! KEY_existingIds)); [reflexivity|].
  rewrite download_run, prepend_prepend. reflexivity.
Qed.

(** *** What [Promise.all] settles with *)

Lemma settle_all_Forall2 {A B : Type} (r : A -> Settled B) (l : list A)
    (l' : list B) :
  settle_all (map r l) = Resolved l' ->
  Forall2 (fun a b => r a = Resolved b) l l'.
Proof.
  revert l'. induction l as [|a l IH]; intros l' H; simpl in H.
  - injection H as <-. constructor.
  - destruct (r a) as [b|e] eqn:Hr; [|discriminate].
    destruct (settle_all (map r l)) as [bs|e]; [|discriminate].
    injection H as <-. constructor; [exact Hr|]. apply IH. reflexivity.
Qed.

Lemma settle_all_total {A B : Type} (r : A -> Settled B) (l : list A) :
  (forall a, In a l -> exists b, r a = Resolved b) ->
  exists l', settle_all (map r l) = Resolved l'.
Proof.
  induction l as [|a l IH]; intros H; simpl.
  - eexists. reflexivity.
  - destruct (H a) as [b Hb]; [left; reflexivity|]. rewrite Hb.
    destruct IH as [l' Hl']; [intros a' Ha'; apply H; right; exact Ha'|].
    rewrite Hl'. eexists. reflexivity.
Qed.

Lemma settle_all_rejects {A B : Type} (r : A -> Settled B) (l : list A)
    (a : A) (e : Error) :
  In a l -> r a = Rejected e ->
  exists a' e', In a' l /\ r a' = Rejected e'
                /\ settle_all (map r l) = Rejected e'.
Proof.
  induction l as [|x l IH]; intros Hin Hr; [destruct Hin|].
  simpl. destruct (r x) as [b|e0] eqn:Hx.
  - destruct Hin as [->|Hin]; [congruence|].
    destruct (IH Hin Hr) as (a' & e' & Ha' & Hr' & Hs).
    exists a', e'. rewrite Hs. repeat split; [right; exact Ha'|exact Hr'].
  - exists x, e0. repeat split; [left; reflexivity|exact Hx].
Qed.

Lemma written_all (env : Env) (storyMessages : list Message.t) (us : list unit) :
  settle_all (map (saveNewMessageBatcher_add env) storyMessages) = Resolved us ->
  written env storyMessages = storyMessages.
Proof.
  revert us. induction storyMessages as [|m l IH]; intros us H; [reflexivity|].
  simpl in *. destruct (saveNewMessageBatcher_add env m) as [u|e]; [|discriminate].
  destruct (settle_all (map (saveNewMessageBatcher_add env) l)) as [us'|e];
    [|discriminate].
  f_equal. apply (IH us'). reflexivity.
Qed.

(** *** Reading the events *)

Lemma cleanups_app evs1 evs2 :
  cleanups (evs1 ++ evs2) = (cleanups evs1 + cleanups evs2)%nat.
Proof.
  induction evs1 as [|ev evs1 IH]; [reflexivity|].
  destruct ev; simpl; rewrite ?IH; reflexivity.
Qed.

Lemma cleanups_map_other {A : Type} (f : A -> Event) (l : list A) :
  (forall a, cleanups [f a] = 0%nat) -> cleanups (map f l) = 0%nat.
Proof.
  intros Hf. induction l as [|a l IH]; [reflexivity|].
  change (map f (a :: l)) with ([f a] ++ map f l).
  rewrite cleanups_app, Hf, IH. reflexivity.
Qed.

Lemma batched_prepend {A : Type} evs (o : Outcome A) :
  batched (events (prepend evs o)) = batched evs ++ batched (events o).
Proof. destruct o. apply batched_app. Qed.

Lemma puts_prepend {A : Type} evs (o : Outcome A) :
  puts (events (prepend evs o)) = puts evs ++ puts (events o).
Proof. destruct o. apply puts_app. Qed.

Lemma final_prepend {A : Type} evs (o : Outcome A) :
  final (prepend evs o) = final o.
Proof. destruct o. reflexivity. Qed.

Lemma settled_prepend {A : Type} evs (o : Outcome A) :
  settled (prepend evs o) = settled o.
Proof. destruct o. reflexivity. Qed.

Lemma events_prepend {A : Type} evs (o : Outcome A) :
  events (prepend evs o) = evs ++ events o.
Proof. destruct o. reflexivity. Qed.

Ltac read_events :=
  cbv zeta; cbn [events final settled];
  rewrite ?batched_app, ?puts_app, ?cleanups_app;
  rewrite ?batched_adds, ?puts_adds;
  rewrite ?(batched_map_other (fun data => EvProcessNewAttachment (newAttachment data)))
    by reflexivity;
  rewrite ?(puts_map_other (fun data => EvProcessNewAttachment (newAttachment data)))
    by reflexivity;
  rewrite ?(cleanups_map_other (fun data => EvProcessNewAttachment (newAttachment data)))
    by reflexivity;
  rewrite ?(batched_map_other (fun m => EvTrigger (Message.id m) "change"))
    by reflexivity;
  rewrite ?(puts_map_other (fun m => EvTrigger (Message.id m) "change"))
    by reflexivity;
  rewrite ?(cleanups_map_other (fun m => EvTrigger (Message.id m) "change"))
    by reflexivity;
  rewrite ?(cleanups_map_other EvBatcherAdd) by reflexivity;
  cbn [batched puts cleanups app Nat.add].

(** The shape of every run of the download proper: the messages handed to the
    batcher are those built from some conversation and attachments; the
    cleanup collaborator is not called; and either nothing is put into the
    storage, which is then what it was, or the only put is the last effect
    but a log line, it records the identifiers of the batch in order, and
    every batcher call had resolved and written its row. *)
Lemma download_closed_shape (env : Env) (server0 : WebAPI) (w : World) :
  exists signalConversation attachments,
    let out := download_closed env server0 w in
    let storyMessages :=
      imap (storyMessage_at env signalConversation (clockReads w)
              (uuidsDrawn w) (receivedAtCounter w)) attachments in
    batched (events out) = storyMessages
    /\ cleanups (events out) = 0%nat
    /\ ((puts (events out) = [] /\ storage (final out) = storage w
         /\ settled out <> Resolved tt)
        \/ (exists pre us,
              events out
              = pre ++ [EvStoragePut KEY_existingIds
                          (SVIds (map Message.id storyMessages));
                        EvLog "downloadOnboardingStory: done" []]
              /\ puts pre = [] /\ batched pre = storyMessages
              /\ settle_all (map (saveNewMessageBatcher_add env) storyMessages)
                 = Resolved us
              /\ settled out = Resolved tt
              /\ messages (final out) = messages w ++ storyMessages
              /\ storage (final out)
                 = <[KEY_existingIds := SVIds (map Message.id storyMessages)]>
                     (storage w))).
Proof.
  unfold download_closed.
  destruct (getOnboardingStoryManifest server0) as [manifest|e].
  2: { exists (Conversation.make "" None), []. read_events.
       repeat split; left; repeat split; discriminate. }
  destruct (downloadOnboardingStories server0 _ _) as [imageBuffers|e].
  2: { exists (Conversation.make "" None), []. read_events.
       repeat split; left; repeat split; discriminate. }
  destruct (settle_all _) as [attachments|e].
  2: { exists (Conversation.make "" None), []. read_events.
       repeat split; left; repeat split; discriminate. }
  destruct (getOrCreateSignalConversation env) as [signalConversation|e].
  2: { exists (Conversation.make "" None), []. read_events.
       repeat split; left; repeat split; discriminate. }
  exists signalConversation, attachments.
  set (storyMessages := imap _ attachments).
  destruct (settle_all (map (saveNewMessageBatcher_add env) storyMessages))
    as [us|e] eqn:Hsaved.
  - cbv zeta. cbn [events final settled].
    split; [read_events; rewrite ?app_nil_r; reflexivity|].
    split; [read_events; reflexivity|].
    right. eexists _, us. split; [rewrite !app_assoc; reflexivity|].
    split; [read_events; reflexivity|].
    split; [read_events; rewrite ?app_nil_r; reflexivity|].
    rewrite (written_all _ _ _ Hsaved). repeat split.
  - read_events. repeat split. left. repeat split. discriminate.
Qed.

Lemma cleanup_events (env : Env) (w : World) : events (cleanup env w) = [EvCleanup].
Proof. unfold cleanup. destruct (findAndDeleteOnboardingStoryIfExists env w). reflexivity. Qed.

Lemma cleanup_settles (env : Env) (w : World) :
  (final (cleanup env w), settled (cleanup env w))
  = findAndDeleteOnboardingStoryIfExists env w.
Proof. unfold cleanup. destruct (findAndDeleteOnboardingStoryIfExists env w). reflexivity. Qed.

(** Past the guards, the continuation is the download proper after the two
    storage reads. *)
Lemma continue_past_guards (env : Env) (server0 : WebAPI) (w : World) :
  server env = Some server0 ->
  truthy (storage w !! KEY_hasViewed) = false ->
  truthy (storage w !! KEY_existingIds) = false ->
  continueDownloadingOnboardingStory env w
  = prepend [EvStorageGet KEY_hasViewed; EvStorageGet KEY_existingIds]
      (download_closed env server0 w).
Proof.
  intros Hs Hv He. rewrite continueDownloadingOnboardingStory_run.
  unfold continueDownloadingOnboardingStory_closed. rewrite Hs, Hv, He.
  reflexivity.
Qed.

(** Every run of the continuation: which messages reach the batcher and what
    is put into the storage. *)
Lemma continue_shape (env : Env) (w : World) :
  exists signalConversation attachments,
    let out := continueDownloadingOnboardingStory env w in
    let storyMessages :=
      imap (storyMessage_at env signalConversation (clockReads w)
              (uuidsDrawn w) (receivedAtCounter w)) attachments in
    batched (events out) = storyMessages
    /\ (puts (events out) = []
        \/ puts (events out)
           = [(KEY_existingIds, SVIds (map Message.id storyMessages))]).
Proof.
  rewrite continueDownloadingOnboardingStory_run.
  unfold continueDownloadingOnboardingStory_closed.
  destruct (server env) as [server0|].
  2: { exists (Conversation.make "" None), []. split; [reflexivity|left; reflexivity]. }
  destruct (truthy (storage w !! KEY_hasViewed)).
  { exists (Conversation.make "" None), []. cbv zeta.
    rewrite batched_prepend, puts_prepend, cleanup_events.
    split; [reflexivity|left; reflexivity]. }
  destruct (truthy (storage w !! KEY_existingIds)).
  { exists (Conversation.make "" None), []. split; [reflexivity|left; reflexivity]. }
  destruct (download_closed_shape env server0 w)
    as (signalConversation & attachments & Hb & _ & Hp).
  exists signalConversation, attachments. cbv zeta in *.
  rewrite batched_prepend, puts_prepend. cbn [batched puts app].
  split; [exact Hb|].
  destruct Hp as [(Hp & _)|(pre & us & Hev & Hpre & _)].
  - left. exact Hp.
  - right. rewrite Hev, puts_app, Hpre. reflexivity.
Qed.

(** *** The locale lookup *)

Lemma locale_key (userLocale : string) (manifest : Manifest.t)
    (names : list string) :
  Manifest.languages manifest !! userLocale = Some names ->
  imageFilenames_of userLocale manifest = Filenames names.
Proof.
  intros H. unfold imageFilenames_of, hasProperty, getProperty. rewrite H.
  rewrite bool_decide_eq_true_2 by (eexists; reflexivity). reflexivity.
Qed.







(** * The claims *)

(** ** C7: the server assertion *)

(** C7. When the remote-transport handle [window.textsecure.server] is not
    initialized, the continuation fails its assertion and does not proceed:
    it makes no call at all (no storage key is read, no cleanup runs, no
    manifest is fetched, no message is created or written), the world is
    left as it was, and the failure is the rejection of the continuation's
    own promise. *)
Theorem continuation_asserts_server (env : Env) (w : World) :
  server env = None ->
  let out := continueDownloadingOnboardingStory env w in
  settled out = Rejected (AssertionError "server not initialized")
  /\ events out = []
  /\ final out = w.
Proof.
  intros Hs. cbv zeta. rewrite continueDownloadingOnboardingStory_run.
  unfold continueDownloadingOnboardingStory_closed. rewrite Hs.
  repeat split.
Qed.

Lemma continuation_asserts_server_witness :
  server noServerEnv = None
  /\ settled (continueDownloadingOnboardingStory noServerEnv viewedWorld)
     = Rejected (AssertionError "server not initialized")
  /\ events (continueDownloadingOnboardingStory noServerEnv viewedWorld) = []
  /\ final (continueDownloadingOnboardingStory noServerEnv viewedWorld)
     = viewedWorld.
Proof.
  split; [reflexivity|].
  apply (continuation_asserts_server noServerEnv viewedWorld). reflexivity.
Defined.

(** ** C2: cleanup once the story has been viewed *)

(** C2, as stated, fails for the continuation: with the story viewed but the
    server not initialized, the continuation stops at its assertion and the
    cleanup collaborator is not invoked. *)
Lemma viewed_without_server_no_cleanup :
  truthy (storage viewedWorld !! KEY_hasViewed) = true
  /\ cleanups (events (continueDownloadingOnboardingStory noServerEnv viewedWorld))
     = 0%nat
  /\ ~ cleans_up_once (continueDownloadingOnboardingStory noServerEnv viewedWorld).
Proof.
  split; [vm_compute; reflexivity|].
  split; [vm_compute; reflexivity|].
  intros [H _]. vm_compute in H. discriminate.
Qed.

(** C2, amended. In every state in which [hasViewedOnboardingStory] reads
    true, the entry point, and the continuation when the server is
    initialized, read that key, invoke the cleanup collaborator exactly once
    and do nothing else: no sync trigger, no listener registration, no
    manifest fetch, no image download; they end in the world and with the
    settlement of the cleanup collaborator. *)
Theorem viewed_story_is_cleaned_up (env : Env) (w : World) :
  truthy (storage w !! KEY_hasViewed) = true ->
  let entry := downloadOnboardingStory env w in
  let continuation := continueDownloadingOnboardingStory env w in
  (events entry = [EvStorageGet KEY_hasViewed; EvCleanup]
   /\ cleans_up_once entry
   /\ (final entry, settled entry) = findAndDeleteOnboardingStoryIfExists env w)
  /\ (forall server0, server env = Some server0 ->
      events continuation = [EvStorageGet KEY_hasViewed; EvCleanup]
      /\ cleans_up_once continuation
      /\ (final continuation, settled continuation)
         = findAndDeleteOnboardingStoryIfExists env w).
Proof.
  intros Hv. cbv zeta.
  rewrite downloadOnboardingStory_run, continueDownloadingOnboardingStory_run.
  unfold downloadOnboardingStory_closed, continueDownloadingOnboardingStory_closed.
  rewrite Hv. unfold cleans_up_once.
  split; [|intros server0 ->];
    rewrite events_prepend, final_prepend, settled_prepend, cleanup_events,
      cleanup_settles;
    repeat split.
Qed.

Lemma viewed_story_is_cleaned_up_witness :
  truthy (storage viewedWorld !! KEY_hasViewed) = true
  /\ server happyEnv = Some (serverWith (Resolved manifestV1))
  /\ cleans_up_once (downloadOnboardingStory happyEnv viewedWorld)
  /\ cleans_up_once (continueDownloadingOnboardingStory happyEnv viewedWorld).
Proof.
  assert (Hv : truthy (storage viewedWorld !! KEY_hasViewed) = true)
    by (vm_compute; reflexivity).
  pose proof (viewed_story_is_cleaned_up happyEnv viewedWorld Hv) as H.
  cbv zeta in H. destruct H as [(_ & He & _) Hc].
  destruct (Hc (serverWith (Resolved manifestV1)) eq_refl) as (_ & Hc' & _).
  split; [exact Hv|]. split; [reflexivity|]. split; [exact He|exact Hc'].
Defined.

(** ** C1: the presence of the id list *)

(** C1, as stated, fails: with the id list present and the story viewed, the
    continuation never reaches the presence check; it hands over to the
    cleanup collaborator, which here deletes the two messages and the list. *)
Lemma viewed_story_skips_presence_check :
  storage viewedWorld !! KEY_existingIds = Some (SVIds ["story-0"; "story-1"])
  /\ events (continueDownloadingOnboardingStory happyEnv viewedWorld)
     = [EvStorageGet KEY_hasViewed; EvCleanup]
  /\ length (messages viewedWorld) = 2%nat
  /\ messages (final (continueDownloadingOnboardingStory happyEnv viewedWorld)) = []
  /\ storage (final (continueDownloadingOnboardingStory happyEnv viewedWorld))
       !! KEY_existingIds = None
  /\ ~ returns_after_presence_check viewedWorld
        (continueDownloadingOnboardingStory happyEnv viewedWorld).
Proof.
  repeat split; try (vm_compute; reflexivity).
  intros (Hin & _). vm_compute in Hin.
  destruct Hin as [H|[H|[]]]; discriminate H.
Qed.

(** Whenever the id list is present, whatever else holds, the workflow hands
    no message to the batcher and puts nothing into the storage. *)
Lemma existing_ids_no_write (env : Env) (w : World) (ids : list string) :
  storage w !! KEY_existingIds = Some (SVIds ids) ->
  batched (events (continueDownloadingOnboardingStory env w)) = []
  /\ puts (events (continueDownloadingOnboardingStory env w)) = [].
Proof.
  intros Hids. rewrite continueDownloadingOnboardingStory_run.
  unfold continueDownloadingOnboardingStory_closed. rewrite Hids.
  destruct (server env); [|split; reflexivity].
  destruct (truthy (storage w !! KEY_hasViewed)).
  - rewrite batched_prepend, puts_prepend, cleanup_events. split; reflexivity.
  - split; reflexivity.
Qed.

(** C1, amended. In every state in which [existingOnboardingStoryMessageIds]
    is present, [hasViewedOnboardingStory] does not read true and the server
    is initialized, the continuation reads the two keys, logs and returns:
    it creates no message and writes nothing, and leaves the whole world,
    all storage keys and the message store included, as it was. *)
Theorem existing_ids_stop_the_continuation (env : Env) (server0 : WebAPI)
    (w : World) (ids : list string) :
  storage w !! KEY_existingIds = Some (SVIds ids) ->
  truthy (storage w !! KEY_hasViewed) = false ->
  server env = Some server0 ->
  let out := continueDownloadingOnboardingStory env w in
  returns_after_presence_check w out
  /\ final out = w
  /\ events out
     = [EvStorageGet KEY_hasViewed; EvStorageGet KEY_existingIds;
        EvLog "downloadOnboardingStory: has existingOnboardingStoryMessageIds" []].
Proof.
  intros Hids Hv Hs. cbv zeta. rewrite continueDownloadingOnboardingStory_run.
  unfold continueDownloadingOnboardingStory_closed, returns_after_presence_check.
  rewrite Hs, Hv, Hids. cbn [truthy events final settled batched puts].
  repeat split. right. left. reflexivity.
Qed.

Lemma existing_ids_stop_the_continuation_witness :
  storage downloadedWorld !! KEY_existingIds = Some (SVIds ["story-0"; "story-1"])
  /\ truthy (storage downloadedWorld !! KEY_hasViewed) = false
  /\ server happyEnv = Some (serverWith (Resolved manifestV1))
  /\ returns_after_presence_check downloadedWorld
       (continueDownloadingOnboardingStory happyEnv downloadedWorld)
  /\ final (continueDownloadingOnboardingStory happyEnv downloadedWorld)
     = downloadedWorld.
Proof.
  assert (Hids : storage downloadedWorld !! KEY_existingIds
                 = Some (SVIds ["story-0"; "story-1"]))
    by (vm_compute; reflexivity).
  assert (Hv : truthy (storage downloadedWorld !! KEY_hasViewed) = false)
    by (vm_compute; reflexivity).
  pose proof (existing_ids_stop_the_continuation happyEnv
                (serverWith (Resolved manifestV1)) downloadedWorld
                ["story-0"; "story-1"] Hids Hv eq_refl) as H.
  cbv zeta in H. destruct H as (Hr & Hf & _).
  split; [exact Hids|]. split; [exact Hv|]. split; [reflexivity|].
  split; [exact Hr|exact Hf].
Defined.

(** ** C3: the locale fallback *)




(** ** C8: neither the locale nor [en] in the manifest *)




(** ** C5: the id list is the commit point *)

(** C5. In every run of the continuation the workflow puts nothing into the
    storage, which then is what it was unless the cleanup collaborator ran,
    or its only put is that of [existingOnboardingStoryMessageIds], made as
    the last effect but the closing log line, after every batcher call of
    the run has resolved and written its row.  Consequently, when the
    manifest fetch, the image download or the ingestion of some attachment
    is rejected, the continuation is rejected with that reason (for the
    ingestion: with the reason of one of the failed ingestions) and the
    world, the storage with it, is what it was. *)
Theorem id_list_is_committed_last (env : Env) (w : World) :
  let out := continueDownloadingOnboardingStory env w in
  ((puts (events out) = []
    /\ (cleanups (events out) = 0%nat -> storage (final out) = storage w))
   \/ (exists pre ids us,
         events out
         = pre ++ [EvStoragePut KEY_existingIds (SVIds ids);
                   EvLog "downloadOnboardingStory: done" []]
         /\ puts pre = []
         /\ ids = map Message.id (batched pre)
         /\ settle_all (map (saveNewMessageBatcher_add env) (batched pre))
            = Resolved us
         /\ messages (final out) = messages w ++ batched pre
         /\ storage (final out) = <[KEY_existingIds := SVIds ids]> (storage w)
         /\ settled out = Resolved tt))
  /\ (forall server0,
        server env = Some server0 ->
        truthy (storage w !! KEY_hasViewed) = false ->
        truthy (storage w !! KEY_existingIds) = false ->
        (forall e,
           getOnboardingStoryManifest server0 = Rejected e ->
           settled out = Rejected e /\ final out = w)
        /\ (forall manifest e,
              getOnboardingStoryManifest server0 = Resolved manifest ->
              downloadOnboardingStories server0 (Manifest.version manifest)
                (imageFilenames_of (getLocale env) manifest) = Rejected e ->
              settled out = Rejected e /\ final out = w)
        /\ (forall manifest imageBuffers data e,
              getOnboardingStoryManifest server0 = Resolved manifest ->
              downloadOnboardingStories server0 (Manifest.version manifest)
                (imageFilenames_of (getLocale env) manifest)
              = Resolved imageBuffers ->
              In data imageBuffers ->
              processNewAttachment env (newAttachment data) = Rejected e ->
              exists data' e',
                In data' imageBuffers
                /\ processNewAttachment env (newAttachment data') = Rejected e'
                /\ settled out = Rejected e' /\ final out = w)).
Proof.
  cbv zeta. split.
  - rewrite continueDownloadingOnboardingStory_run.
    unfold continueDownloadingOnboardingStory_closed.
    destruct (server env) as [server0|];
      [|left; split; [reflexivity|intros _; reflexivity]].
    destruct (truthy (storage w !! KEY_hasViewed)).
    { left. rewrite events_prepend, cleanup_events. split; [reflexivity|].
      cbn. discriminate. }
    destruct (truthy (storage w !! KEY_existingIds));
      [left; split; [reflexivity|intros _; reflexivity]|].
    destruct (download_closed_shape env server0 w)
      as (signalConversation & attachments & Hb & _ & Hp).
    cbv zeta in Hb, Hp.
    rewrite events_prepend, final_prepend, settled_prepend.
    destruct Hp as [(Hp & Hst & _)|(pre & us & Hev & Hpre & Hbpre & Hsaved & Hres & Hmsgs & Hst)].
    + left. rewrite puts_app, Hp. split; [reflexivity|intros _; exact Hst].
    + right.
      exists ([EvStorageGet KEY_hasViewed; EvStorageGet KEY_existingIds] ++ pre).
      eexists _, us. rewrite Hev, <- app_assoc.
      split; [reflexivity|].
      rewrite puts_app, batched_app, Hpre, Hbpre. cbn [puts batched app].
      repeat split; assumption.
  - intros server0 Hs Hv He.
    rewrite (continue_past_guards env server0 w Hs Hv He).
    rewrite final_prepend, settled_prepend. unfold download_closed.
    split; [|split].
    + intros e Hm. rewrite Hm. split; reflexivity.
    + intros manifest e Hm Hd. rewrite Hm. cbv zeta. rewrite Hd.
      split; reflexivity.
    + intros manifest imageBuffers data e Hm Hd Hin Hp.
      rewrite Hm. cbv zeta. rewrite Hd.
      destruct (settle_all_rejects
                  (fun data => processNewAttachment env (newAttachment data))
                  imageBuffers data e Hin Hp)
        as (data' & e' & Hin' & Hp' & Hall).
      exists data', e'. rewrite Hall. repeat split; assumption.
Qed.

Lemma id_list_is_committed_last_witness :
  (settled (continueDownloadingOnboardingStory offlineEnv emptyWorld)
   = Rejected (TransportError "offline")
   /\ final (continueDownloadingOnboardingStory offlineEnv emptyWorld) = emptyWorld)
  /\ (settled (continueDownloadingOnboardingStory noImagesEnv emptyWorld)
      = Rejected (TransportError "503")
      /\ final (continueDownloadingOnboardingStory noImagesEnv emptyWorld)
         = emptyWorld)
  /\ (settled (continueDownloadingOnboardingStory badImageEnv emptyWorld)
      = Rejected (IngestionError "not a JPEG")
      /\ final (continueDownloadingOnboardingStory badImageEnv emptyWorld)
         = emptyWorld
      /\ storage (final (continueDownloadingOnboardingStory badImageEnv emptyWorld))
           !! KEY_existingIds = None).
Proof.
  assert (Hv : truthy (storage emptyWorld !! KEY_hasViewed) = false)
    by (vm_compute; reflexivity).
  assert (He : truthy (storage emptyWorld !! KEY_existingIds) = false)
    by (vm_compute; reflexivity).
  split; [|split].
  - destruct (id_list_is_committed_last offlineEnv emptyWorld) as [_ H].
    destruct (H _ eq_refl Hv He) as (Hm & _).
    exact (Hm _ eq_refl).
  - destruct (id_list_is_committed_last noImagesEnv emptyWorld) as [_ H].
    destruct (H _ eq_refl Hv He) as (_ & Hd & _).
    exact (Hd manifestV1 _ eq_refl eq_refl).
  - destruct (id_list_is_committed_last badImageEnv emptyWorld) as [_ H].
    destruct (H _ eq_refl Hv He) as (_ & _ & Hp).
    assert (Hnames : imageFilenames_of (getLocale badImageEnv) manifestV1
                     = Filenames ["1.jpg"; "2.jpg"]) by (vm_compute; reflexivity).
    assert (Hd : downloadOnboardingStories (serverWith (Resolved manifestV1))
                   (Manifest.version manifestV1)
                   (imageFilenames_of (getLocale badImageEnv) manifestV1)
                 = Resolved [String.list_byte_of_string "1.jpg";
                             String.list_byte_of_string "2.jpg"])
      by (rewrite Hnames; reflexivity).
    destruct (Hp manifestV1 _ (String.list_byte_of_string "2.jpg")
                (IngestionError "not a JPEG") eq_refl Hd
                (or_intror (or_introl eq_refl)) eq_refl)
      as (data' & e' & Hin' & Hp' & Hsettled & Hfinal).
    assert (He' : e' = IngestionError "not a JPEG").
    { destruct Hin' as [<-|[<-|[]]]; vm_compute in Hp'; congruence. }
    subst e'. split; [exact Hsettled|]. split; [exact Hfinal|].
    rewrite Hfinal. vm_compute. reflexivity.
Defined.

(** The timestamp, and the three fields that copy it, of the message at
    position [i] of the batch of a run. *)
Lemma batch_time_fields (env : Env) (w : World) (i : nat)
    (message : Message.t) :
  batched (events (continueDownloadingOnboardingStory env w)) !! i = Some message ->
  Message.timestamp message = Date_now env (clockReads w + i)%nat + Z.of_nat i
  /\ Message.sent_at message = Message.timestamp message
  /\ Message.serverTimestamp message = Message.timestamp message
  /\ Message.received_at_ms message = Message.timestamp message.
Proof.
  destruct (continue_shape env w) as (signalConversation & attachments & Hb & _).
  cbv zeta in Hb. rewrite Hb, list_lookup_imap.
  destruct (attachments !! i) as [attachment|]; [|discriminate].
  intros [= <-]. repeat split.
Qed.

(** ** C9: the four time fields *)

(** C9. In every run of the continuation, the message handed to the batcher
    at position [i] has its four time fields [timestamp], [sent_at],
    [serverTimestamp] and [received_at_ms] all equal to one value, the
    timestamp computed for that position: the clock reading taken for it
    plus [i]. *)
Theorem story_time_fields_agree (env : Env) (w : World) (i : nat)
    (message : Message.t) :
  batched (events (continueDownloadingOnboardingStory env w)) !! i = Some message ->
  let timestamp := Date_now env (clockReads w + i)%nat + Z.of_nat i in
  Message.timestamp message = timestamp
  /\ Message.sent_at message = timestamp
  /\ Message.serverTimestamp message = timestamp
  /\ Message.received_at_ms message = timestamp.
Proof.
  intros H. cbv zeta.
  destruct (batch_time_fields env w i message H) as (Ht & Hs & Hv & Hr).
  rewrite Hs, Hv, Hr. repeat split; exact Ht.
Qed.

Lemma story_time_fields_agree_witness :
  exists message,
    batched (events (continueDownloadingOnboardingStory tickingEnv emptyWorld)) !! 1%nat
    = Some message
    /\ Message.timestamp message = 1667000000006
    /\ Message.sent_at message = 1667000000006
    /\ Message.serverTimestamp message = 1667000000006
    /\ Message.received_at_ms message = 1667000000006.
Proof.
  eexists. split; [vm_compute; reflexivity|].
  refine (story_time_fields_agree tickingEnv emptyWorld 1 _ _).
  vm_compute. reflexivity.
Defined.

(** ** C4: timestamps and the order of the id list *)

(** C4, as stated, fails: [Date.now()] is read anew for every message, so
    with a clock that advances between the two readings the timestamps of a
    batch of two are not [base] and [base + 1] for any [base]. *)
Lemma advancing_clock_breaks_consecutive_timestamps :
  map Message.timestamp
    (batched (events (continueDownloadingOnboardingStory tickingEnv emptyWorld)))
  = [1667000000000; 1667000000006]
  /\ ~ (exists base,
          consecutive_from base
            (batched
               (events (continueDownloadingOnboardingStory tickingEnv emptyWorld)))).
Proof.
  split; [vm_compute; reflexivity|].
  intros [base H].
  destruct (batched (events (continueDownloadingOnboardingStory tickingEnv emptyWorld)))
    as [|m0 [|m1 rest]] eqn:Hmsgs; try (vm_compute in Hmsgs; discriminate).
  pose proof (H 0%nat m0 eq_refl) as H0.
  pose proof (H 1%nat m1 eq_refl) as H1.
  vm_compute in Hmsgs. injection Hmsgs as <- <- _.
  cbn in H0, H1. lia.
Qed.

(** C4, amended. In every run of the continuation the message at position
    [i] of the batch has for timestamp the clock reading taken for that
    message plus [i] (the clock is read once per message, not once per
    batch).  Hence the timestamps are [base], [base + 1], ... when the clock
    reads [base] throughout the batch, and they are strictly increasing, so
    unique, whenever the readings do not decrease.  The only value ever put
    under [existingOnboardingStoryMessageIds] is the list of the identifiers
    of the batch in index order; and a run that downloads [N] images and
    resolves has built [N] messages and left that list in the storage. *)
Theorem story_timestamps_and_id_order (env : Env) (w : World) :
  let out := continueDownloadingOnboardingStory env w in
  let storyMessages := batched (events out) in
  (forall i message,
     storyMessages !! i = Some message ->
     Message.timestamp message
     = Date_now env (clockReads w + i)%nat + Z.of_nat i)
  /\ (forall base,
        (forall i, (i < length storyMessages)%nat ->
                   Date_now env (clockReads w + i)%nat = base) ->
        consecutive_from base storyMessages)
  /\ ((forall i j, (i <= j < length storyMessages)%nat ->
                   Date_now env (clockReads w + i)%nat
                   <= Date_now env (clockReads w + j)%nat) ->
      forall i j mi mj,
        (i < j)%nat ->
        storyMessages !! i = Some mi -> storyMessages !! j = Some mj ->
        Message.timestamp mi < Message.timestamp mj)
  /\ (forall key value,
        In (key, value) (puts (events out)) ->
        key = KEY_existingIds /\ value = SVIds (map Message.id storyMessages))
  /\ (forall server0 manifest imageBuffers,
        server env = Some server0 ->
        truthy (storage w !! KEY_hasViewed) = false ->
        truthy (storage w !! KEY_existingIds) = false ->
        getOnboardingStoryManifest server0 = Resolved manifest ->
        downloadOnboardingStories server0 (Manifest.version manifest)
          (imageFilenames_of (getLocale env) manifest) = Resolved imageBuffers ->
        settled out = Resolved tt ->
        length storyMessages = length imageBuffers
        /\ storage (final out) !! KEY_existingIds
           = Some (SVIds (map Message.id storyMessages))).
Proof.
  cbv zeta.
  assert (Hts : forall i message,
             batched (events (continueDownloadingOnboardingStory env w)) !! i
             = Some message ->
             Message.timestamp message
             = Date_now env (clockReads w + i)%nat + Z.of_nat i).
  { intros i message H. apply (batch_time_fields env w i message H). }
  split; [exact Hts|]. split; [|split; [|split]].
  - intros base Hclock i message H. rewrite (Hts i message H).
    rewrite Hclock; [reflexivity|]. apply lookup_lt_Some in H. exact H.
  - intros Hmono i j mi mj Hij Hi Hj.
    rewrite (Hts i mi Hi), (Hts j mj Hj).
    assert (Hle : Date_now env (clockReads w + i)%nat
                  <= Date_now env (clockReads w + j)%nat).
    { apply Hmono. apply lookup_lt_Some in Hj. lia. }
    lia.
  - intros key value Hin.
    destruct (continue_shape env w) as (signalConversation & attachments & Hb & Hp).
    cbv zeta in Hb, Hp. rewrite Hb.
    destruct Hp as [Hp|Hp]; rewrite Hp in Hin; [destruct Hin|].
    destruct Hin as [[= <- <-]|[]]. split; reflexivity.
  - intros server0 manifest imageBuffers Hs Hv He Hm Hd.
    rewrite (continue_past_guards env server0 w Hs Hv He).
    rewrite settled_prepend, final_prepend, batched_prepend. cbn [batched app].
    unfold download_closed. rewrite Hm. cbv zeta. rewrite Hd.
    destruct (settle_all _) as [attachments|e] eqn:Hatts; [|discriminate].
    destruct (getOrCreateSignalConversation env) as [signalConversation|e];
      [|discriminate].
    destruct (settle_all (map (saveNewMessageBatcher_add env) _)) as [us|e];
      [|discriminate].
    intros _. read_events. rewrite app_nil_r.
    split.
    + rewrite length_imap.
      symmetry. apply (Forall2_length _ _ _ (settle_all_Forall2 _ _ _ Hatts)).
    + unfold with_storage. cbn [storage]. apply lookup_insert_eq.
Qed.

Lemma story_timestamps_and_id_order_witness :
  consecutive_from 1667000000000
    (batched (events (continueDownloadingOnboardingStory happyEnv emptyWorld)))
  /\ (exists m0 m1,
        batched (events (continueDownloadingOnboardingStory tickingEnv emptyWorld))
        = [m0; m1]
        /\ Message.timestamp m1 = tickingClock 1 + 1
        /\ Message.timestamp m0 < Message.timestamp m1)
  /\ SVIds ["story-0"; "story-1"]
     = SVIds (map Message.id
                (batched
                   (events (continueDownloadingOnboardingStory happyEnv emptyWorld))))
  /\ length (batched
               (events (continueDownloadingOnboardingStory happyEnv emptyWorld)))
     = 2%nat
  /\ storage (final (continueDownloadingOnboardingStory happyEnv emptyWorld))
       !! KEY_existingIds
     = Some (SVIds
               (map Message.id
                  (batched
                     (events
                        (continueDownloadingOnboardingStory happyEnv emptyWorld))))).
Proof.
  destruct (story_timestamps_and_id_order happyEnv emptyWorld)
    as (_ & Hbase & _ & Hput & Hrun).
  destruct (story_timestamps_and_id_order tickingEnv emptyWorld)
    as (Hts & _ & Hmono & _).
  assert (Hv : truthy (storage emptyWorld !! KEY_hasViewed) = false)
    by (vm_compute; reflexivity).
  assert (He : truthy (storage emptyWorld !! KEY_existingIds) = false)
    by (vm_compute; reflexivity).
  split; [|split; [|split]].
  - apply Hbase. intros i _. reflexivity.
  - eexists _, _. split; [vm_compute; reflexivity|]. split.
    + refine (Hts 1%nat _ _). vm_compute. reflexivity.
    + refine (Hmono _ 0%nat 1%nat _ _ _ _ _).
      * intros i j Hij. unfold tickingEnv, fixtureEnv, Date_now, tickingClock. lia.
      * lia.
      * vm_compute. reflexivity.
      * vm_compute. reflexivity.
  - refine (proj2 (Hput KEY_existingIds (SVIds ["story-0"; "story-1"]) _)).
    vm_compute. left. reflexivity.
  - refine (Hrun (serverWith (Resolved manifestV1)) manifestV1
              [String.list_byte_of_string "1.jpg"; String.list_byte_of_string "2.jpg"]
              eq_refl Hv He eq_refl _ _).
    + vm_compute. reflexivity.
    + vm_compute. reflexivity.
Defined.

(** ** C10: one attachment each, one conversation for all *)

(** C10. In every run of the continuation that reaches message construction
    (the guards pass, the manifest and the images arrive, every ingestion
    and the conversation lookup resolve), there is one message per image
    buffer, and the message at position [i] carries exactly one attachment:
    the one [processNewAttachment] resolved with when handed the buffer at
    position [i] as an [image/jpeg] attachment with that buffer for data and
    its byte length for size; its [conversationId] is the signal
    conversation's [id] and its [sourceUuid] that conversation's [uuid]. *)
Theorem story_messages_attribution (env : Env) (server0 : WebAPI) (w : World)
    (manifest : Manifest.t) (imageBuffers : list (list byte))
    (signalConversation : Conversation.t) :
  server env = Some server0 ->
  truthy (storage w !! KEY_hasViewed) = false ->
  truthy (storage w !! KEY_existingIds) = false ->
  getOnboardingStoryManifest server0 = Resolved manifest ->
  downloadOnboardingStories server0 (Manifest.version manifest)
    (imageFilenames_of (getLocale env) manifest) = Resolved imageBuffers ->
  (forall data, In data imageBuffers ->
     exists attachment,
       processNewAttachment env
         (Attachment.make "image/jpeg" data (length data) None)
       = Resolved attachment) ->
  getOrCreateSignalConversation env = Resolved signalConversation ->
  let storyMessages :=
    batched (events (continueDownloadingOnboardingStory env w)) in
  length storyMessages = length imageBuffers
  /\ forall i message,
       storyMessages !! i = Some message ->
       exists data attachment,
         imageBuffers !! i = Some data
         /\ processNewAttachment env
              (Attachment.make "image/jpeg" data (length data) None)
            = Resolved attachment
         /\ Message.attachments message = [attachment]
         /\ Message.conversationId message = Conversation.id signalConversation
         /\ Message.sourceUuid message = Conversation.uuid signalConversation.
Proof.
  intros Hs Hv He Hm Hd Hp Hc. cbv zeta.
  rewrite (continue_past_guards env server0 w Hs Hv He).
  rewrite batched_prepend. cbn [batched app].
  unfold download_closed. rewrite Hm. cbv zeta. rewrite Hd.
  destruct (settle_all_total
              (fun data => processNewAttachment env (newAttachment data))
              imageBuffers Hp) as [attachments Hatts].
  rewrite Hatts, Hc.
  apply settle_all_Forall2 in Hatts.
  assert (Hb : forall o : Outcome unit,
             batched (events o)
             = imap (storyMessage_at env signalConversation (clockReads w)
                       (uuidsDrawn w) (receivedAtCounter w)) attachments ->
             length (batched (events o)) = length imageBuffers
             /\ forall i message,
                  batched (events o) !! i = Some message ->
                  exists data attachment,
                    imageBuffers !! i = Some data
                    /\ processNewAttachment env
                         (Attachment.make "image/jpeg" data (length data) None)
                       = Resolved attachment
                    /\ Message.attachments message = [attachment]
                    /\ Message.conversationId message
                       = Conversation.id signalConversation
                    /\ Message.sourceUuid message
                       = Conversation.uuid signalConversation).
  { intros o ->. split.
    - rewrite length_imap. symmetry. apply (Forall2_length _ _ _ Hatts).
    - intros i message. rewrite list_lookup_imap.
      destruct (attachments !! i) as [attachment|] eqn:Hi; [|discriminate].
      intros [= <-].
      destruct (Forall2_lookup_r _ _ _ _ _ Hatts Hi) as (data & Hdata & Hproc).
      exists data, attachment.
      split; [exact Hdata|]. split; [exact Hproc|]. repeat split. }
  destruct (settle_all (map (saveNewMessageBatcher_add env) _)) as [us|e];
    apply Hb; read_events; rewrite ?app_nil_r; reflexivity.
Qed.

Lemma story_messages_attribution_witness :
  length (batched (events (continueDownloadingOnboardingStory happyEnv emptyWorld)))
  = 2%nat
  /\ forall i message,
       batched (events (continueDownloadingOnboardingStory happyEnv emptyWorld)) !! i
       = Some message ->
       exists data attachment,
         [String.list_byte_of_string "1.jpg"; String.list_byte_of_string "2.jpg"] !! i
         = Some data
         /\ processNewAttachment happyEnv
              (Attachment.make "image/jpeg" data (length data) None)
            = Resolved attachment
         /\ Message.attachments message = [attachment]
         /\ Message.conversationId message = "signal-conversation"
         /\ Message.sourceUuid message = Some "uuid-of-signal".
Proof.
  assert (Hv : truthy (storage emptyWorld !! KEY_hasViewed) = false)
    by (vm_compute; reflexivity).
  assert (He : truthy (storage emptyWorld !! KEY_existingIds) = false)
    by (vm_compute; reflexivity).
  refine (story_messages_attribution happyEnv (serverWith (Resolved manifestV1))
            emptyWorld manifestV1
            [String.list_byte_of_string "1.jpg"; String.list_byte_of_string "2.jpg"]
            signalConversation0 eq_refl Hv He eq_refl _ _ eq_refl).
  - vm_compute. reflexivity.
  - intros data _. eexists. reflexivity.
Defined.

(** ** C6: the end-to-end scenario *)

(** C6. From a state where [hasViewedOnboardingStory] reads false and there
    is no id list, with a manifest of version [v1] whose [en] entry is
    [1.jpg], [2.jpg], the active locale [en], and collaborators that
    resolve, the continuation asks for these two images of [v1], hands
    exactly two messages to the batcher, which writes them, each with type
    [story], read status [Unread], seen status [Unseen] and
    [canReplyToStory] false, and then writes
    [existingOnboardingStoryMessageIds] with exactly their two identifiers. *)
Theorem end_to_end_two_images (env : Env) (server0 : WebAPI) (w : World)
    (manifest : Manifest.t) (image1 image2 : list byte)
    (attachment1 attachment2 : Attachment.t)
    (signalConversation : Conversation.t) :
  server env = Some server0 ->
  truthy (storage w !! KEY_hasViewed) = false ->
  storage w !! KEY_existingIds = None ->
  getLocale env = "en" ->
  getOnboardingStoryManifest server0 = Resolved manifest ->
  Manifest.version manifest = "v1" ->
  Manifest.languages manifest !! "en" = Some ["1.jpg"; "2.jpg"] ->
  downloadOnboardingStories server0 "v1" (Filenames ["1.jpg"; "2.jpg"])
  = Resolved [image1; image2] ->
  processNewAttachment env (newAttachment image1) = Resolved attachment1 ->
  processNewAttachment env (newAttachment image2) = Resolved attachment2 ->
  getOrCreateSignalConversation env = Resolved signalConversation ->
  (forall message, saveNewMessageBatcher_add env message = Resolved tt) ->
  let out := continueDownloadingOnboardingStory env w in
  exists message1 message2,
    In (EvDownloadStories "v1" (Filenames ["1.jpg"; "2.jpg"])) (events out)
    /\ batched (events out) = [message1; message2]
    /\ messages (final out) = messages w ++ [message1; message2]
    /\ Message.attachments message1 = [attachment1]
    /\ Message.attachments message2 = [attachment2]
    /\ unread_story message1 /\ unread_story message2
    /\ puts (events out)
       = [(KEY_existingIds,
           SVIds [Message.id message1; Message.id message2])]
    /\ storage (final out) !! KEY_existingIds
       = Some (SVIds [Message.id message1; Message.id message2])
    /\ settled out = Resolved tt.
Proof.
  intros Hs Hv He Hlocale Hm Hversion Hen Hd Hp1 Hp2 Hc Hsave. cbv zeta.
  assert (He' : truthy (storage w !! KEY_existingIds) = false)
    by (rewrite He; reflexivity).
  rewrite (continue_past_guards env server0 w Hs Hv He').
  assert (Hnames : imageFilenames_of (getLocale env) manifest
                   = Filenames ["1.jpg"; "2.jpg"]).
  { rewrite Hlocale. apply locale_key. exact Hen. }
  unfold download_closed. rewrite Hm. cbv zeta.
  rewrite Hnames, Hversion, Hd.
  cbn [map settle_all]. rewrite Hp1, Hp2, Hc.
  cbn [imap]. cbn [map settle_all written]. rewrite !Hsave.
  eexists _, _.
  rewrite events_prepend, final_prepend, settled_prepend.
  split; [cbn [app map In]; do 5 right; left; reflexivity|].
  split; [read_events; reflexivity|].
  split; [reflexivity|].
  split; [reflexivity|]. split; [reflexivity|].
  split; [repeat split|]. split; [repeat split|].
  split; [read_events; reflexivity|].
  split; [|reflexivity].
  unfold with_storage. cbn [final storage]. apply lookup_insert_eq.
Qed.

Lemma end_to_end_two_images_witness :
  exists message1 message2,
    batched (events (continueDownloadingOnboardingStory happyEnv freshWorld))
    = [message1; message2]
    /\ messages (final (continueDownloadingOnboardingStory happyEnv freshWorld))
       = [message1; message2]
    /\ unread_story message1 /\ unread_story message2
    /\ storage (final (continueDownloadingOnboardingStory happyEnv freshWorld))
         !! KEY_existingIds
       = Some (SVIds [Message.id message1; Message.id message2])
    /\ settled (continueDownloadingOnboardingStory happyEnv freshWorld)
       = Resolved tt.
Proof.
  assert (Hv : truthy (storage freshWorld !! KEY_hasViewed) = false)
    by (vm_compute; reflexivity).
  assert (He : storage freshWorld !! KEY_existingIds = None)
    by (vm_compute; reflexivity).
  assert (Hen : Manifest.languages manifestV1 !! "en" = Some ["1.jpg"; "2.jpg"])
    by (vm_compute; reflexivity).
  destruct (end_to_end_two_images happyEnv (serverWith (Resolved manifestV1))
              freshWorld manifestV1
              (String.list_byte_of_string "1.jpg")
              (String.list_byte_of_string "2.jpg")
              _ _ signalConversation0
              eq_refl Hv He eq_refl eq_refl eq_refl Hen eq_refl eq_refl eq_refl
              eq_refl (fun _ => eq_refl))
    as (message1 & message2 & _ & Hb & Hm & _ & _ & H1 & H2 & _ & Hst & Hres).
  exists message1, message2.
  split; [exact Hb|]. split; [exact Hm|]. split; [exact H1|].
  split; [exact H2|]. split; [exact Hst|exact Hres].
Defined.

(** * Further properties of the workflow *)

Lemma keys_differ : KEY_existingIds <> KEY_hasViewed.
Proof. unfold KEY_existingIds, KEY_hasViewed. discriminate. Qed.

Lemma collect_app {A : Type} (pick : Event -> option A) evs1 evs2 :
  collect pick (evs1 ++ evs2) = collect pick evs1 ++ collect pick evs2.
Proof.
  induction evs1 as [|ev evs1 IH]; [reflexivity|].
  cbn [app collect]. destruct (pick ev); rewrite IH; reflexivity.
Qed.

Lemma collect_map_none {A B : Type} (pick : Event -> option A)
    (f : B -> Event) (l : list B) :
  (forall b, pick (f b) = None) -> collect pick (map f l) = [].
Proof.
  intros Hf. induction l as [|b l IH]; [reflexivity|].
  cbn [map collect]. rewrite Hf. exact IH.
Qed.

Lemma collect_map_some {A B : Type} (pick : Event -> option A)
    (f : B -> Event) (g : B -> A) (l : list B) :
  (forall b, pick (f b) = Some (g b)) -> collect pick (map f l) = map g l.
Proof.
  intros Hf. induction l as [|b l IH]; [reflexivity|].
  cbn [map collect]. rewrite Hf, IH. reflexivity.
Qed.

(** Once the id list is there and the story is not viewed, the continuation
    only reads the two keys and logs. *)
Lemma rerun_after_commit (env : Env) (server0 : WebAPI) (w : World) :
  server env = Some server0 ->
  truthy (storage w !! KEY_hasViewed) = false ->
  truthy (storage w !! KEY_existingIds) = true ->
  continueDownloadingOnboardingStory env w
  = mkOutcome presence_calls w (Resolved tt).
Proof.
  intros Hs Hv He. rewrite continueDownloadingOnboardingStory_run.
  unfold continueDownloadingOnboardingStory_closed. rewrite Hs, Hv, He.
  reflexivity.
Qed.

(** The download proper, when every collaborator resolves. *)
Lemma download_closed_resolved (env : Env) (server0 : WebAPI) (w : World) :
  settled (download_closed env server0 w) = Resolved tt ->
  exists manifest imageBuffers attachments signalConversation us,
    let storyMessages :=
      imap (storyMessage_at env signalConversation (clockReads w)
              (uuidsDrawn w) (receivedAtCounter w)) attachments in
    getOnboardingStoryManifest server0 = Resolved manifest
    /\ downloadOnboardingStories server0 (Manifest.version manifest)
         (imageFilenames_of (getLocale env) manifest) = Resolved imageBuffers
    /\ settle_all
         (map (fun data => processNewAttachment env (newAttachment data))
            imageBuffers) = Resolved attachments
    /\ getOrCreateSignalConversation env = Resolved signalConversation
    /\ settle_all (map (saveNewMessageBatcher_add env) storyMessages)
       = Resolved us
    /\ events (download_closed env server0 w)
       = ((([EvGetLocale; EvGetManifest;
             EvLog "downloadOnboardingStory: got manifest version:"
               [LogString (Manifest.version manifest)];
             EvDownloadStories (Manifest.version manifest)
               (imageFilenames_of (getLocale env) manifest)]
            ++ [EvLog "downloadOnboardingStory: downloaded stories:"
                  [LogNumber (length imageBuffers)]]
            ++ map (fun data => EvProcessNewAttachment (newAttachment data))
                 imageBuffers)
           ++ [EvLog "downloadOnboardingStory: getting signal conversation" [];
               EvGetSignalConversation])
          ++ map EvBatcherAdd storyMessages)
         ++ map (fun m => EvTrigger (Message.id m) "change") storyMessages
         ++ [EvStoragePut KEY_existingIds (SVIds (map Message.id storyMessages));
             EvLog "downloadOnboardingStory: done" []]
    /\ final (download_closed env server0 w)
       = mkWorld
           (<[KEY_existingIds := SVIds (map Message.id storyMessages)]> (storage w))
           (messages w ++ storyMessages) (listeners w)
           (clockReads w + length attachments)
           (uuidsDrawn w + length attachments)
           (receivedAtCounter w + Z.of_nat (length attachments)).
Proof.
  unfold download_closed.
  destruct (getOnboardingStoryManifest server0) as [manifest|e] eqn:Hm;
    [|discriminate].
  cbv zeta.
  destruct (downloadOnboardingStories server0 _ _) as [imageBuffers|e] eqn:Hd;
    [|discriminate].
  destruct (settle_all (map (fun data => _) imageBuffers))
    as [attachments|e] eqn:Hatts; [|discriminate].
  destruct (getOrCreateSignalConversation env) as [signalConversation|e] eqn:Hc;
    [|discriminate].
  destruct (settle_all (map (saveNewMessageBatcher_add env) _)) as [us|e] eqn:Hsave;
    [|discriminate].
  intros _. exists manifest, imageBuffers, attachments, signalConversation, us.
  cbv zeta. cbn [events final]. unfold with_storage. cbn [storage messages
    listeners clockReads uuidsDrawn receivedAtCounter].
  rewrite (written_all _ _ _ Hsave). repeat split; assumption.
Qed.

(** The download proper registers nothing and leaves the listeners alone. *)
Lemma download_closed_frame (env : Env) (server0 : WebAPI) (w : World) :
  registrations (events (download_closed env server0 w)) = []
  /\ listeners (final (download_closed env server0 w)) = listeners w.
Proof.
  unfold download_closed, registrations.
  destruct (getOnboardingStoryManifest server0) as [manifest|e];
    [|split; reflexivity].
  cbv zeta.
  destruct (downloadOnboardingStories server0 _ _) as [imageBuffers|e];
    [|split; reflexivity].
  assert (Hproc : forall l : list (list byte),
             collect
               (fun ev =>
                  match ev with
                  | EvRunStorageServiceSyncJob | EvOnce _ _ => Some ev
                  | _ => None
                  end)
               (map (fun data => EvProcessNewAttachment (newAttachment data)) l)
             = []).
  { intros l. apply collect_map_none. reflexivity. }
  destruct (settle_all (map (fun data => _) imageBuffers)) as [attachments|e].
  2: { cbn [events final]. rewrite !collect_app, Hproc. split; reflexivity. }
  destruct (getOrCreateSignalConversation env) as [signalConversation|e].
  2: { cbn [events final]. rewrite !collect_app, Hproc. split; reflexivity. }
  destruct (settle_all (map (saveNewMessageBatcher_add env) _)) as [us|e];
    cbn [events final]; rewrite !collect_app, Hproc;
    rewrite ?(collect_map_none _ EvBatcherAdd) by reflexivity;
    rewrite ?(collect_map_none _ (fun m => EvTrigger (Message.id m) "change"))
      by reflexivity;
    split; reflexivity.
Qed.

(** ** X1: the entry point while the story is not viewed *)

(** X1. While [hasViewedOnboardingStory] does not read true, the entry point
    reads that key, triggers the storage-service sync once and registers the
    continuation once on [storageService:syncComplete], in this order, and
    resolves; it fetches nothing, and leaves the storage and the message
    store as they were. *)
Theorem entry_point_arms_the_continuation (env : Env) (w : World) :
  truthy (storage w !! KEY_hasViewed) = false ->
  let out := downloadOnboardingStory env w in
  events out = entry_calls
  /\ settled out = Resolved tt
  /\ storage (final out) = storage w
  /\ messages (final out) = messages w
  /\ listeners (final out)
     = listeners w
       ++ [("storageService:syncComplete", ContinueDownloadingOnboardingStory)].
Proof.
  intros Hv. cbv zeta. rewrite downloadOnboardingStory_run.
  unfold downloadOnboardingStory_closed. rewrite Hv. repeat split.
Qed.

Lemma entry_point_arms_the_continuation_witness :
  truthy (storage freshWorld !! KEY_hasViewed) = false
  /\ events (downloadOnboardingStory noServerEnv freshWorld) = entry_calls
  /\ listeners (final (downloadOnboardingStory noServerEnv freshWorld))
     = [("storageService:syncComplete", ContinueDownloadingOnboardingStory)].
Proof.
  assert (Hv : truthy (storage freshWorld !! KEY_hasViewed) = false)
    by (vm_compute; reflexivity).
  destruct (entry_point_arms_the_continuation noServerEnv freshWorld Hv)
    as (Hev & _ & _ & _ & Hl).
  split; [exact Hv|]. split; [exact Hev|exact Hl].
Defined.

(** ** X2: calling the entry point several times *)

(** X2. While the story is not viewed, [n] calls of the entry point in a row
    trigger the sync [n] times and leave [n] registrations of the
    continuation on the event bus: nothing de-duplicates the listeners. *)
Theorem entry_point_calls_accumulate (env : Env) (n : nat) (w : World) :
  truthy (storage w !! KEY_hasViewed) = false ->
  let out := times n (downloadOnboardingStory env) w in
  settled out = Resolved tt
  /\ events out = concat (replicate n entry_calls)
  /\ listeners (final out)
     = listeners w
       ++ replicate n
            ("storageService:syncComplete", ContinueDownloadingOnboardingStory)
  /\ storage (final out) = storage w
  /\ messages (final out) = messages w.
Proof.
  revert w. induction n as [|n IH]; intros w Hv; cbv zeta.
  - cbn [times replicate concat]. rewrite app_nil_r. repeat split.
  - cbn [times]. rewrite await_run, downloadOnboardingStory_run.
    unfold downloadOnboardingStory_closed. rewrite Hv.
    cbv beta. cbn [settled events final].
    rewrite events_prepend, final_prepend, settled_prepend.
    match goal with
    | |- context [times n _ ?w1] =>
        destruct (IH w1 Hv) as (Hs & He & Hl & Hst & Hm)
    end.
    rewrite Hs, He, Hl, Hst, Hm. cbn [listeners storage messages].
    rewrite <- app_assoc. repeat split.
Qed.

Lemma entry_point_calls_accumulate_witness :
  truthy (storage freshWorld !! KEY_hasViewed) = false
  /\ length (listeners (final (times 3 (downloadOnboardingStory happyEnv) freshWorld)))
     = 3%nat
  /\ length (registrations
               (events (times 3 (downloadOnboardingStory happyEnv) freshWorld)))
     = 6%nat.
Proof.
  assert (Hv : truthy (storage freshWorld !! KEY_hasViewed) = false)
    by (vm_compute; reflexivity).
  destruct (entry_point_calls_accumulate happyEnv 3 freshWorld Hv)
    as (_ & He & Hl & _).
  split; [exact Hv|]. rewrite He, Hl. split; reflexivity.
Defined.

(** ** X3: the continuation does not re-arm itself *)

(** X3. No run of the continuation triggers a sync or registers a listener;
    and unless the story reads as viewed, it does not call the cleanup
    collaborator and leaves the registered listeners as they were. *)
Theorem continuation_never_rearms (env : Env) (w : World) :
  let out := continueDownloadingOnboardingStory env w in
  registrations (events out) = []
  /\ (truthy (storage w !! KEY_hasViewed) = false ->
      cleanups (events out) = 0%nat /\ listeners (final out) = listeners w).
Proof.
  cbv zeta. rewrite continueDownloadingOnboardingStory_run.
  unfold continueDownloadingOnboardingStory_closed.
  destruct (server env) as [server0|]; [|repeat split].
  destruct (truthy (storage w !! KEY_hasViewed)).
  { rewrite events_prepend, cleanup_events. split; [reflexivity|discriminate]. }
  destruct (truthy (storage w !! KEY_existingIds)); [repeat split|].
  destruct (download_closed_frame env server0 w) as [Hr Hl].
  destruct (download_closed_shape env server0 w) as (? & ? & _ & Hc & _).
  cbv zeta in Hc.
  rewrite events_prepend, final_prepend. unfold registrations in *.
  rewrite collect_app, cleanups_app, Hr, Hc, Hl. repeat split.
Qed.

Lemma continuation_never_rearms_witness :
  truthy (storage freshWorld !! KEY_hasViewed) = false
  /\ cleanups (events (continueDownloadingOnboardingStory happyEnv freshWorld))
     = 0%nat
  /\ listeners (final (continueDownloadingOnboardingStory happyEnv freshWorld))
     = listeners freshWorld.
Proof.
  assert (Hv : truthy (storage freshWorld !! KEY_hasViewed) = false)
    by (vm_compute; reflexivity).
  destruct (continuation_never_rearms happyEnv freshWorld) as [_ H].
  split; [exact Hv|]. exact (H Hv).
Defined.

(** ** X4: the storage keys the continuation touches *)

(** X4. Unless the story reads as viewed, a run of the continuation leaves
    every storage key other than [existingOnboardingStoryMessageIds] with
    the value it had, whether the run resolves or is rejected; and when it
    resolves, the id list is present afterwards. *)
Theorem continuation_storage_frame (env : Env) (w : World) :
  truthy (storage w !! KEY_hasViewed) = false ->
  let out := continueDownloadingOnboardingStory env w in
  (forall key, key <> KEY_existingIds ->
     storage (final out) !! key = storage w !! key)
  /\ (settled out = Resolved tt ->
      truthy (storage (final out) !! KEY_existingIds) = true).
Proof.
  intros Hv. cbv zeta. rewrite continueDownloadingOnboardingStory_run.
  unfold continueDownloadingOnboardingStory_closed.
  destruct (server env) as [server0|]; [|split; [reflexivity|discriminate]].
  rewrite Hv.
  destruct (truthy (storage w !! KEY_existingIds)) eqn:He;
    [split; [reflexivity|intros _; exact He]|].
  rewrite final_prepend, settled_prepend.
  destruct (download_closed_shape env server0 w) as (? & ? & _ & _ & Hp).
  cbv zeta in Hp.
  destruct Hp as [(_ & Hst & Hrej)|(pre & us & _ & _ & _ & _ & _ & _ & Hst)];
    rewrite Hst.
  - split; [reflexivity|]. intros Hres. destruct (Hrej Hres).
  - split.
    + intros key Hkey. apply lookup_insert_ne. congruence.
    + intros _. rewrite lookup_insert_eq. reflexivity.
Qed.

Lemma continuation_storage_frame_witness :
  truthy (storage freshWorld !! KEY_hasViewed) = false
  /\ storage (final (continueDownloadingOnboardingStory happyEnv freshWorld))
       !! KEY_hasViewed = Some (SVBool false)
  /\ truthy (storage (final (continueDownloadingOnboardingStory happyEnv freshWorld))
               !! KEY_existingIds) = true.
Proof.
  assert (Hv : truthy (storage freshWorld !! KEY_hasViewed) = false)
    by (vm_compute; reflexivity).
  destruct (continuation_storage_frame happyEnv freshWorld Hv) as [Hframe Hids].
  split; [exact Hv|]. split.
  - rewrite (Hframe KEY_hasViewed (fun H => keys_differ (eq_sym H))).
    vm_compute. reflexivity.
  - apply Hids. vm_compute. reflexivity.
Defined.

(** ** X5: every image is handed to the ingestion *)

(** X5. Once the images are downloaded, every buffer is handed to
    [processNewAttachment], in download order, as an attachment of content
    type [image/jpeg] whose data is the buffer and whose size is its byte
    length; this holds whatever the ingestions settle with, so a rejected
    ingestion does not stop the later ones from being started. *)
Theorem every_image_is_ingested (env : Env) (server0 : WebAPI) (w : World)
    (manifest : Manifest.t) (imageBuffers : list (list byte)) :
  server env = Some server0 ->
  truthy (storage w !! KEY_hasViewed) = false ->
  truthy (storage w !! KEY_existingIds) = false ->
  getOnboardingStoryManifest server0 = Resolved manifest ->
  downloadOnboardingStories server0 (Manifest.version manifest)
    (imageFilenames_of (getLocale env) manifest) = Resolved imageBuffers ->
  ingested (events (continueDownloadingOnboardingStory env w))
  = map (fun data => Attachment.make "image/jpeg" data (length data) None)
      imageBuffers.
Proof.
  intros Hs Hv He Hm Hd.
  rewrite (continue_past_guards env server0 w Hs Hv He), events_prepend.
  unfold download_closed. rewrite Hm. cbv zeta. rewrite Hd.
  unfold ingested.
  assert (Hproc :
            collect
              (fun ev =>
                 match ev with
                 | EvProcessNewAttachment attachment => Some attachment
                 | _ => None
                 end)
              (map (fun data => EvProcessNewAttachment (newAttachment data))
                 imageBuffers)
            = map (fun data => Attachment.make "image/jpeg" data (length data) None)
                imageBuffers).
  { apply collect_map_some. reflexivity. }
  destruct (settle_all (map (fun data => _) imageBuffers)) as [attachments|e].
  2: { cbn [events]. rewrite !collect_app, Hproc. reflexivity. }
  destruct (getOrCreateSignalConversation env) as [signalConversation|e].
  2: { cbn [events]. rewrite !collect_app, Hproc. cbn [collect app].
       rewrite app_nil_r. reflexivity. }
  destruct (settle_all (map (saveNewMessageBatcher_add env) _)) as [us|e];
    cbn [events]; rewrite !collect_app, Hproc;
    rewrite ?(collect_map_none _ EvBatcherAdd) by reflexivity;
    rewrite ?(collect_map_none _ (fun m => EvTrigger (Message.id m) "change"))
      by reflexivity;
    cbn [collect app]; rewrite ?app_nil_r; reflexivity.
Qed.

Lemma every_image_is_ingested_witness :
  settled (continueDownloadingOnboardingStory badImageEnv emptyWorld)
  = Rejected (IngestionError "not a JPEG")
  /\ map Attachment.size
       (ingested (events (continueDownloadingOnboardingStory badImageEnv emptyWorld)))
     = [5%nat; 5%nat].
Proof.
  assert (Hv : truthy (storage emptyWorld !! KEY_hasViewed) = false)
    by (vm_compute; reflexivity).
  assert (He : truthy (storage emptyWorld !! KEY_existingIds) = false)
    by (vm_compute; reflexivity).
  split; [vm_compute; reflexivity|].
  rewrite (every_image_is_ingested badImageEnv (serverWith (Resolved manifestV1))
             emptyWorld manifestV1
             [String.list_byte_of_string "1.jpg"; String.list_byte_of_string "2.jpg"]
             eq_refl Hv He eq_refl).
  - reflexivity.
  - vm_compute. reflexivity.
Defined.

(** A resolved [Promise.all] means every member resolved. *)
Lemma settle_all_resolved_each {A B : Type} (r : A -> Settled B) (l : list A)
    (l' : list B) :
  settle_all (map r l) = Resolved l' ->
  forall a, In a l -> exists b, r a = Resolved b.
Proof.
  revert l'. induction l as [|x l IH]; intros l' H a Hin; [destruct Hin|].
  cbn [map settle_all] in H.
  destruct (r x) as [b|e] eqn:Hx; [|discriminate].
  destruct (settle_all (map r l)) as [bs|e] eqn:Hl; [|discriminate].
  destruct Hin as [<-|Hin]; [exists b; exact Hx|].
  exact (IH bs eq_refl a Hin).
Qed.

(** ** X6: a rejected batcher call *)

(** The attachments of a batch are the processed attachments, one each. *)
Lemma batch_attachments (env : Env) (signalConversation : Conversation.t)
    (clock0 uuid0 : nat) (counter0 : Z) (attachments : list Attachment.t) :
  map Message.attachments
    (imap (storyMessage_at env signalConversation clock0 uuid0 counter0)
       attachments)
  = map (fun attachment => [attachment]) attachments.
Proof.
  apply list_eq. intros i.
  change (map ?f ?l) with (f <$> l).
  rewrite !list_lookup_fmap, list_lookup_imap.
  destruct (attachments !! i); reflexivity.
Qed.

(** X6. When the batcher rejects one of the messages of a run, the
    continuation is rejected with the reason of a rejected batcher call.
    Every ingestion of the run had resolved, and for every processed
    attachment, in order, the message built around it was handed to the
    batcher all the same; but no [change] is triggered, nothing is put into
    the storage and the storage stays as it was. *)
Theorem rejected_batcher_call (env : Env) (w : World) (message : Message.t)
    (e : Error) :
  In message (batched (events (continueDownloadingOnboardingStory env w))) ->
  saveNewMessageBatcher_add env message = Rejected e ->
  let out := continueDownloadingOnboardingStory env w in
  exists message' e' attachments,
    In message' (batched (events out))
    /\ saveNewMessageBatcher_add env message' = Rejected e'
    /\ settled out = Rejected e'
    /\ settle_all (map (processNewAttachment env) (ingested (events out)))
       = Resolved attachments
    /\ map Message.attachments (batched (events out))
       = map (fun attachment => [attachment]) attachments
    /\ triggered (events out) = []
    /\ puts (events out) = []
    /\ storage (final out) = storage w.
Proof.
  cbv zeta. rewrite continueDownloadingOnboardingStory_run.
  unfold continueDownloadingOnboardingStory_closed.
  destruct (server env) as [server0|]; [|intros []].
  destruct (truthy (storage w !! KEY_hasViewed)).
  { rewrite batched_prepend, cleanup_events. intros []. }
  destruct (truthy (storage w !! KEY_existingIds)); [intros []|].
  rewrite events_prepend, final_prepend, settled_prepend, batched_app.
  cbn [batched app]. unfold download_closed, triggered, ingested.
  destruct (getOnboardingStoryManifest server0) as [manifest|e0]; [|intros []].
  cbv zeta.
  destruct (downloadOnboardingStories server0 _ _) as [imageBuffers|e0];
    [|intros []].
  destruct (settle_all (map (fun data => _) imageBuffers))
    as [attachments|e0] eqn:Hatts.
  2: { read_events. intros []. }
  destruct (getOrCreateSignalConversation env) as [signalConversation|e0].
  2: { read_events. intros []. }
  set (storyMessages := imap _ attachments).
  destruct (settle_all (map (saveNewMessageBatcher_add env) storyMessages))
    as [us|e0] eqn:Hsave.
  - read_events. rewrite app_nil_r. intros Hin Hrej.
    destruct (settle_all_resolved_each _ _ _ Hsave message Hin) as [u Hu].
    congruence.
  - cbn [events final settled storage messages].
    match goal with
    | |- In _ (batched ?evs) -> _ =>
        assert (Hb : batched evs = storyMessages)
          by (read_events; reflexivity);
        rewrite Hb
    end.
    intros Hin Hrej.
    destruct (settle_all_rejects (saveNewMessageBatcher_add env) storyMessages
                message e Hin Hrej) as (message' & e' & Hin' & Hrej' & Hall).
    rewrite Hsave in Hall. injection Hall as ->.
    exists message', e', attachments.
    split; [exact Hin'|]. split; [exact Hrej'|]. split; [reflexivity|].
    split.
    { cbn [collect]. rewrite !collect_app.
      rewrite (collect_map_some _
                 (fun data => EvProcessNewAttachment (newAttachment data))
                 newAttachment) by reflexivity.
      rewrite (collect_map_none _ EvBatcherAdd) by reflexivity.
      cbn [collect app]. rewrite !app_nil_r, map_map. exact Hatts. }
    split; [apply batch_attachments|].
    split.
    { cbn [collect]. rewrite !collect_app.
      rewrite (collect_map_none _
                 (fun data => EvProcessNewAttachment (newAttachment data)))
        by reflexivity.
      rewrite (collect_map_none _ EvBatcherAdd) by reflexivity.
      reflexivity. }
    split; [cbn [puts]; read_events; reflexivity|]. reflexivity.
Qed.

Lemma rejected_batcher_call_witness :
  settled (continueDownloadingOnboardingStory diskFullEnv freshWorld)
  = Rejected (PersistenceError "disk full")
  /\ map Message.id
       (batched (events (continueDownloadingOnboardingStory diskFullEnv freshWorld)))
     = ["story-0"; "story-1"]
  /\ length (ingested
               (events (continueDownloadingOnboardingStory diskFullEnv freshWorld)))
     = 2%nat
  /\ storage (final (continueDownloadingOnboardingStory diskFullEnv freshWorld))
       !! KEY_existingIds = None.
Proof.
  assert (H0 : exists m0,
             In m0 (batched (events (continueDownloadingOnboardingStory
                                       diskFullEnv freshWorld)))
             /\ saveNewMessageBatcher_add diskFullEnv m0
                = Rejected (PersistenceError "disk full")).
  { eexists. split; [vm_compute; left; reflexivity|vm_compute; reflexivity]. }
  destruct H0 as (m0 & Hin & Hrej).
  destruct (rejected_batcher_call diskFullEnv freshWorld m0 _ Hin Hrej)
    as (message' & e' & attachments & _ & Hrej' & Hsettled & _).
  unfold diskFullEnv, saveNewMessageBatcher_add in Hrej'.
  destruct (decide (Message.id message' = "story-0")) as [Hd|Hd];
    [|discriminate Hrej'].
  injection Hrej' as <-.
  split; [exact Hsettled|]. repeat split; vm_compute; reflexivity.
Defined.

(** ** X7: running the continuation again *)

(** X7. When a run of the continuation from a state where the story is not
    viewed resolves, a second run from the state it leaves reads the two
    keys, logs and resolves: it hands no message to the batcher, puts
    nothing into the storage and changes nothing. *)
Theorem second_run_changes_nothing (env : Env) (w : World) :
  truthy (storage w !! KEY_hasViewed) = false ->
  settled (continueDownloadingOnboardingStory env w) = Resolved tt ->
  let w1 := final (continueDownloadingOnboardingStory env w) in
  let again := continueDownloadingOnboardingStory env w1 in
  settled again = Resolved tt
  /\ events again = presence_calls
  /\ batched (events again) = []
  /\ puts (events again) = []
  /\ final again = w1.
Proof.
  intros Hv Hres. cbv zeta.
  assert (Hw1 : exists server0,
             server env = Some server0
             /\ truthy (storage (final (continueDownloadingOnboardingStory env w))
                          !! KEY_hasViewed) = false
             /\ truthy (storage (final (continueDownloadingOnboardingStory env w))
                          !! KEY_existingIds) = true).
  { revert Hres. rewrite continueDownloadingOnboardingStory_run.
    unfold continueDownloadingOnboardingStory_closed.
    destruct (server env) as [server0|]; [|discriminate].
    rewrite Hv.
    destruct (truthy (storage w !! KEY_existingIds)) eqn:He.
    { intros _. exists server0. cbn [final]. repeat split; assumption. }
    rewrite final_prepend, settled_prepend. intros Hres.
    destruct (download_closed_shape env server0 w) as (? & ? & _ & _ & Hp).
    cbv zeta in Hp.
    destruct Hp as [(_ & _ & Hrej)|(pre & us & _ & _ & _ & _ & _ & _ & Hst)];
      [destruct (Hrej Hres)|].
    exists server0. rewrite Hst. split; [reflexivity|]. split.
    - rewrite lookup_insert_ne by exact keys_differ. exact Hv.
    - rewrite lookup_insert_eq. reflexivity. }
  destruct Hw1 as (server0 & Hs & Hv1 & He1).
  rewrite (rerun_after_commit env server0 _ Hs Hv1 He1).
  repeat split.
Qed.

Lemma second_run_changes_nothing_witness :
  truthy (storage freshWorld !! KEY_hasViewed) = false
  /\ settled (continueDownloadingOnboardingStory happyEnv freshWorld) = Resolved tt
  /\ final (continueDownloadingOnboardingStory happyEnv
              (final (continueDownloadingOnboardingStory happyEnv freshWorld)))
     = final (continueDownloadingOnboardingStory happyEnv freshWorld)
  /\ batched
       (events
          (continueDownloadingOnboardingStory happyEnv
             (final (continueDownloadingOnboardingStory happyEnv freshWorld))))
     = [].
Proof.
  assert (Hv : truthy (storage freshWorld !! KEY_hasViewed) = false)
    by (vm_compute; reflexivity).
  assert (Hres : settled (continueDownloadingOnboardingStory happyEnv freshWorld)
                 = Resolved tt) by (vm_compute; reflexivity).
  destruct (second_run_changes_nothing happyEnv freshWorld Hv Hres)
    as (_ & _ & Hb & _ & Hf).
  split; [exact Hv|]. split; [exact Hres|]. split; [exact Hf|exact Hb].
Defined.

(** ** X8: the order of the effects of a completed download *)

(** X8. A run that goes through the download and resolves hands all its
    messages to the batcher, then triggers [change] once on each of them in
    the same order, then puts the id list, then logs; before the first
    batcher call nothing is written, triggered or put. *)
Theorem completed_download_order (env : Env) (w : World) :
  truthy (storage w !! KEY_hasViewed) = false ->
  truthy (storage w !! KEY_existingIds) = false ->
  settled (continueDownloadingOnboardingStory env w) = Resolved tt ->
  exists before storyMessages,
    events (continueDownloadingOnboardingStory env w)
    = before
      ++ map EvBatcherAdd storyMessages
      ++ map (fun m => EvTrigger (Message.id m) "change") storyMessages
      ++ [EvStoragePut KEY_existingIds (SVIds (map Message.id storyMessages));
          EvLog "downloadOnboardingStory: done" []]
    /\ batched before = [] /\ triggered before = [] /\ puts before = [].
Proof.
  intros Hv He. rewrite continueDownloadingOnboardingStory_run.
  unfold continueDownloadingOnboardingStory_closed.
  destruct (server env) as [server0|]; [|discriminate].
  rewrite Hv, He, settled_prepend, events_prepend. intros Hres.
  destruct (download_closed_resolved env server0 w Hres)
    as (manifest & imageBuffers & attachments & signalConversation & us
        & _ & _ & _ & _ & _ & Hev & _).
  cbv zeta in Hev. rewrite Hev.
  eexists _, _. split.
  { rewrite <- (app_assoc _ (map EvBatcherAdd _)). rewrite app_assoc.
    reflexivity. }
  unfold triggered.
  rewrite !batched_app, !puts_app, !collect_app.
  rewrite (batched_map_other (fun data => EvProcessNewAttachment (newAttachment data)))
    by reflexivity.
  rewrite (puts_map_other (fun data => EvProcessNewAttachment (newAttachment data)))
    by reflexivity.
  rewrite (collect_map_none _ (fun data => EvProcessNewAttachment (newAttachment data)))
    by reflexivity.
  repeat split.
Qed.

Lemma completed_download_order_witness :
  exists before storyMessages,
    events (continueDownloadingOnboardingStory happyEnv freshWorld)
    = before
      ++ map EvBatcherAdd storyMessages
      ++ map (fun m => EvTrigger (Message.id m) "change") storyMessages
      ++ [EvStoragePut KEY_existingIds (SVIds (map Message.id storyMessages));
          EvLog "downloadOnboardingStory: done" []]
    /\ batched before = [] /\ triggered before = [] /\ puts before = [].
Proof.
  apply (completed_download_order happyEnv freshWorld);
    vm_compute; reflexivity.
Defined.

(** ** X9: the identifiers of a batch *)

(** X9. In every run of the continuation the message at position [i] of the
    batch has for identifier the [i]-th identifier [UUID.generate] yields
    from the start of the run; so when the generator does not repeat itself
    over the batch, the identifiers of the batch are pairwise distinct, and
    so are those of any id list the run puts into the storage. *)
Theorem story_ids_are_distinct (env : Env) (w : World) :
  let storyMessages :=
    batched (events (continueDownloadingOnboardingStory env w)) in
  (forall i message,
     storyMessages !! i = Some message ->
     Message.id message = UUID_generate env (uuidsDrawn w + i)%nat)
  /\ ((forall i j,
         (i < length storyMessages)%nat -> (j < length storyMessages)%nat ->
         UUID_generate env (uuidsDrawn w + i)%nat
         = UUID_generate env (uuidsDrawn w + j)%nat ->
         i = j) ->
      NoDup (map Message.id storyMessages)
      /\ forall key ids,
           In (key, SVIds ids)
              (puts (events (continueDownloadingOnboardingStory env w))) ->
           NoDup ids).
Proof.
  cbv zeta.
  destruct (continue_shape env w) as (signalConversation & attachments & Hb & Hp).
  cbv zeta in Hb, Hp.
  assert (Hid : forall i message,
             batched (events (continueDownloadingOnboardingStory env w)) !! i
             = Some message ->
             Message.id message = UUID_generate env (uuidsDrawn w + i)%nat).
  { intros i message. rewrite Hb, list_lookup_imap.
    destruct (attachments !! i) as [attachment|]; [|discriminate].
    intros [= <-]. reflexivity. }
  split; [exact Hid|]. intros Hinj.
  assert (Hnodup : NoDup (map Message.id
                            (batched (events (continueDownloadingOnboardingStory env w))))).
  { apply NoDup_alt. intros i j x.
    change (map Message.id ?l) with (Message.id <$> l).
    rewrite !list_lookup_fmap.
    destruct (batched (events (continueDownloadingOnboardingStory env w)) !! i)
      as [mi|] eqn:Hi; [|discriminate].
    destruct (batched (events (continueDownloadingOnboardingStory env w)) !! j)
      as [mj|] eqn:Hj; [|discriminate].
    cbn [fmap option_fmap option_map]. intros [= <-] [= Hx].
    apply Hinj.
    - apply (lookup_lt_Some _ _ _ Hi).
    - apply (lookup_lt_Some _ _ _ Hj).
    - rewrite <- (Hid i mi Hi), <- (Hid j mj Hj). symmetry. exact Hx. }
  split; [exact Hnodup|].
  intros key ids Hin. rewrite <- Hb in Hp.
  destruct Hp as [Hp|Hp]; rewrite Hp in Hin; [destruct Hin|].
  destruct Hin as [[= _ <-]|[]]. exact Hnodup.
Qed.

Lemma story_ids_are_distinct_witness :
  NoDup (map Message.id
           (batched (events (continueDownloadingOnboardingStory happyEnv emptyWorld)))).
Proof.
  destruct (story_ids_are_distinct happyEnv emptyWorld) as [_ H].
  refine (proj1 (H _)).
  intros i j _ _ Heq.
  change (UUID_generate happyEnv (uuidsDrawn emptyWorld + i)%nat)
    with ("story-" +:+ pretty i) in Heq.
  change (UUID_generate happyEnv (uuidsDrawn emptyWorld + j)%nat)
    with ("story-" +:+ pretty j) in Heq.
  apply (inj (String.app "story-")) in Heq.
  apply (inj pretty) in Heq. exact Heq.
Defined.

(** ** X10: a locale entry with no images *)

(** X10. When the download resolves with no image at all, the continuation
    still asks for the signal conversation and, if that resolves, builds no
    message, leaves the message store alone and puts the empty list under
    [existingOnboardingStoryMessageIds]; as an array, even empty, reads as
    present, the next run stops at the presence check and the download is
    never tried again. *)
Theorem no_images_still_commits (env : Env) (server0 : WebAPI) (w : World)
    (manifest : Manifest.t) (signalConversation : Conversation.t) :
  server env = Some server0 ->
  truthy (storage w !! KEY_hasViewed) = false ->
  truthy (storage w !! KEY_existingIds) = false ->
  getOnboardingStoryManifest server0 = Resolved manifest ->
  downloadOnboardingStories server0 (Manifest.version manifest)
    (imageFilenames_of (getLocale env) manifest) = Resolved [] ->
  getOrCreateSignalConversation env = Resolved signalConversation ->
  let out := continueDownloadingOnboardingStory env w in
  settled out = Resolved tt
  /\ In EvGetSignalConversation (events out)
  /\ batched (events out) = []
  /\ puts (events out) = [(KEY_existingIds, SVIds [])]
  /\ messages (final out) = messages w
  /\ storage (final out) !! KEY_existingIds = Some (SVIds [])
  /\ continueDownloadingOnboardingStory env (final out)
     = mkOutcome presence_calls (final out) (Resolved tt).
Proof.
  intros Hs Hv He Hm Hd Hc. cbv zeta.
  rewrite (continue_past_guards env server0 w Hs Hv He).
  unfold download_closed. rewrite Hm. cbv zeta. rewrite Hd.
  cbn [map settle_all]. rewrite Hc.
  cbn [imap map settle_all written length prepend app].
  cbn [settled events final].
  assert (Hst : forall W,
             storage (with_storage (insert KEY_existingIds (SVIds [])) W)
               !! KEY_existingIds = Some (SVIds [])).
  { intros W. unfold with_storage. cbn [storage]. apply lookup_insert_eq. }
  split; [reflexivity|].
  split; [cbn [In]; do 8 right; left; reflexivity|].
  split; [reflexivity|]. split; [reflexivity|].
  split; [unfold with_storage; cbn [messages]; apply app_nil_r|].
  split; [apply Hst|].
  apply (rerun_after_commit env server0 _ Hs).
  - unfold with_storage. cbn [storage].
    rewrite lookup_insert_ne by exact keys_differ. exact Hv.
  - rewrite Hst. reflexivity.
Qed.

Lemma no_images_still_commits_witness :
  settled (continueDownloadingOnboardingStory noImagesListedEnv freshWorld)
  = Resolved tt
  /\ storage (final (continueDownloadingOnboardingStory noImagesListedEnv freshWorld))
       !! KEY_existingIds = Some (SVIds [])
  /\ events
       (continueDownloadingOnboardingStory noImagesListedEnv
          (final (continueDownloadingOnboardingStory noImagesListedEnv freshWorld)))
     = presence_calls.
Proof.
  assert (Hv : truthy (storage freshWorld !! KEY_hasViewed) = false)
    by (vm_compute; reflexivity).
  assert (He : truthy (storage freshWorld !! KEY_existingIds) = false)
    by (vm_compute; reflexivity).
  assert (Hd : downloadOnboardingStories (serverWith (Resolved manifestNoImages))
                 (Manifest.version manifestNoImages)
                 (imageFilenames_of (getLocale noImagesListedEnv) manifestNoImages)
               = Resolved []) by (vm_compute; reflexivity).
  destruct (no_images_still_commits noImagesListedEnv
              (serverWith (Resolved manifestNoImages)) freshWorld
              manifestNoImages signalConversation0
              eq_refl Hv He eq_refl Hd eq_refl)
    as (Hres & _ & _ & _ & _ & Hst & Hagain).
  split; [exact Hres|]. split; [exact Hst|].
  exact (f_equal events Hagain).
Defined.

(** ** X11: the signal conversation cannot be obtained *)

(** X11. When the images are downloaded and ingested but
    [getOrCreateSignalConversation] is rejected, the continuation is
    rejected with that reason before any message is built: the clock is not
    read, no identifier is drawn, nothing reaches the batcher or the
    storage, and the world is what it was. *)
Theorem conversation_failure_builds_nothing (env : Env) (server0 : WebAPI)
    (w : World) (manifest : Manifest.t) (imageBuffers : list (list byte))
    (e : Error) :
  server env = Some server0 ->
  truthy (storage w !! KEY_hasViewed) = false ->
  truthy (storage w !! KEY_existingIds) = false ->
  getOnboardingStoryManifest server0 = Resolved manifest ->
  downloadOnboardingStories server0 (Manifest.version manifest)
    (imageFilenames_of (getLocale env) manifest) = Resolved imageBuffers ->
  (forall data, In data imageBuffers ->
     exists attachment,
       processNewAttachment env (newAttachment data) = Resolved attachment) ->
  getOrCreateSignalConversation env = Rejected e ->
  let out := continueDownloadingOnboardingStory env w in
  settled out = Rejected e
  /\ final out = w
  /\ batched (events out) = []
  /\ puts (events out) = []
  /\ length (ingested (events out)) = length imageBuffers.
Proof.
  intros Hs Hv He Hm Hd Hp Hc. cbv zeta.
  rewrite (continue_past_guards env server0 w Hs Hv He).
  rewrite settled_prepend, final_prepend, batched_prepend, puts_prepend,
    events_prepend.
  unfold download_closed. rewrite Hm. cbv zeta. rewrite Hd.
  destruct (settle_all_total
              (fun data => processNewAttachment env (newAttachment data))
              imageBuffers Hp) as [attachments Hatts].
  rewrite Hatts, Hc. cbn [settled final events].
  split; [reflexivity|]. split; [reflexivity|].
  split; [read_events; reflexivity|]. split; [read_events; reflexivity|].
  unfold ingested. cbn [app collect]. rewrite !collect_app.
  rewrite (collect_map_some _
             (fun data => EvProcessNewAttachment (newAttachment data))
             newAttachment) by reflexivity.
  cbn [collect app]. rewrite app_nil_r. apply length_map.
Qed.

Lemma conversation_failure_builds_nothing_witness :
  settled (continueDownloadingOnboardingStory noConversationEnv freshWorld)
  = Rejected (OtherError "no signal conversation")
  /\ final (continueDownloadingOnboardingStory noConversationEnv freshWorld)
     = freshWorld
  /\ length (ingested
               (events (continueDownloadingOnboardingStory noConversationEnv
                          freshWorld))) = 2%nat.
Proof.
  assert (Hv : truthy (storage freshWorld !! KEY_hasViewed) = false)
    by (vm_compute; reflexivity).
  assert (He : truthy (storage freshWorld !! KEY_existingIds) = false)
    by (vm_compute; reflexivity).
  assert (Hd : downloadOnboardingStories (serverWith (Resolved manifestV1))
                 (Manifest.version manifestV1)
                 (imageFilenames_of (getLocale noConversationEnv) manifestV1)
               = Resolved [String.list_byte_of_string "1.jpg";
                           String.list_byte_of_string "2.jpg"])
    by (vm_compute; reflexivity).
  destruct (conversation_failure_builds_nothing noConversationEnv
              (serverWith (Resolved manifestV1)) freshWorld manifestV1 _
              (OtherError "no signal conversation")
              eq_refl Hv He eq_refl Hd
              (fun data _ => ex_intro _ _ eq_refl) eq_refl)
    as (Hres & Hf & _ & _ & Hn).
  split; [exact Hres|]. split; [exact Hf|exact Hn].
Defined.

(** ** X12: one clock reading and one identifier per message *)

(** X12. Unless the story reads as viewed, a run of the continuation calls
    [Date.now] and [UUID.generate] exactly once for each message it hands to
    the batcher, and not at all when it builds no message. *)
Theorem one_clock_reading_per_message (env : Env) (w : World) :
  truthy (storage w !! KEY_hasViewed) = false ->
  let out := continueDownloadingOnboardingStory env w in
  clockReads (final out)
  = (clockReads w + length (batched (events out)))%nat
  /\ uuidsDrawn (final out)
     = (uuidsDrawn w + length (batched (events out)))%nat.
Proof.
  intros Hv. cbv zeta. rewrite continueDownloadingOnboardingStory_run.
  unfold continueDownloadingOnboardingStory_closed.
  destruct (server env) as [server0|]; [|cbn; split; lia].
  rewrite Hv.
  destruct (truthy (storage w !! KEY_existingIds)); [cbn; split; lia|].
  rewrite final_prepend, batched_prepend. cbn [batched app].
  unfold download_closed.
  destruct (getOnboardingStoryManifest server0) as [manifest|e];
    [|cbn; split; lia].
  cbv zeta.
  destruct (downloadOnboardingStories server0 _ _) as [imageBuffers|e];
    [|cbn; split; lia].
  destruct (settle_all (map (fun data => _) imageBuffers)) as [attachments|e].
  2: { read_events. cbn. split; lia. }
  destruct (getOrCreateSignalConversation env) as [signalConversation|e].
  2: { read_events. cbn. split; lia. }
  destruct (settle_all (map (saveNewMessageBatcher_add env) _)) as [us|e];
    read_events; rewrite ?app_nil_r, length_imap;
    unfold with_storage; cbn [clockReads uuidsDrawn]; split; reflexivity.
Qed.

Lemma one_clock_reading_per_message_witness :
  truthy (storage freshWorld !! KEY_hasViewed) = false
  /\ clockReads (final (continueDownloadingOnboardingStory tickingEnv freshWorld))
     = 2%nat
  /\ uuidsDrawn (final (continueDownloadingOnboardingStory tickingEnv freshWorld))
     = 2%nat.
Proof.
  assert (Hv : truthy (storage freshWorld !! KEY_hasViewed) = false)
    by (vm_compute; reflexivity).
  destruct (one_clock_reading_per_message tickingEnv freshWorld Hv) as [Hc Hu].
  assert (Hn : length (batched (events (continueDownloadingOnboardingStory
                                          tickingEnv freshWorld))) = 2%nat)
    by (vm_compute; reflexivity).
  rewrite Hn in Hc, Hu. split; [exact Hv|]. split; [exact Hc|exact Hu].
Defined.
